(** * Face-detection overlay components: a shallow embedding

    The two camera components of the application ([src/components/camera.tsx]
    and the cropped-face variant) are modelled here.  JavaScript numbers are
    modelled as rationals [Q]; every concrete input used below is a dyadic
    rational, so the floating-point results coincide with the exact ones.
    Canvas drawing calls are recorded as a list of commands, React state
    setters as record updates, and the timer loop as a small event-driven
    scheduler. *)

From Stdlib Require Import QArith List String Bool ZArith Lia.
Import ListNotations.
Open Scope Q_scope.

(** ** Data shared by both components *)

(** [interface FaceDetection] *)
Record FaceDetection := mkFace {
  topLeft : Q * Q;
  bottomRight : Q * Q;
  probability : Q;
  landmarks : list (Q * Q)
}.

(** The canvas 2D context calls used by the renderers. *)
Inductive DrawCmd :=
| ClearRect (x y w h : Q)
| StrokeRect (x y w h : Q)
| Arc (x y r : Q).

(** The video element, as read by [detectFaces]. *)
Record Video := mkVideo {
  clientWidth : Q;
  clientHeight : Q;
  videoWidth : Q;
  videoHeight : Q;
  haveEnoughData : bool
}.

(** A media track: [track.stop()] ends it. *)
Record Track := mkTrack { track_id : nat; live : bool }.

(** JavaScript truthiness of a nullable reference. *)
Definition is_set {A} (o : option A) : bool :=
  match o with Some _ => true | None => false end.

Definition stop_track (t : Track) : Track := mkTrack (track_id t) false.

(** ** [src/components/camera.tsx] *)
Module Camera.

(** [const scaleX = video.clientWidth / video.videoWidth] and likewise [scaleY]. *)
Definition scaleX (v : Video) : Q := clientWidth v / videoWidth v.
Definition scaleY (v : Video) : Q := clientHeight v / videoHeight v.

(** The body of [predictions.forEach((face) => ...)]. *)
Definition draw_face (sx sy : Q) (face : FaceDetection) : list DrawCmd :=
  let '(x, y) := topLeft face in
  let width := fst (bottomRight face) - fst (topLeft face) in
  let height := snd (bottomRight face) - snd (topLeft face) in
  StrokeRect (x * sx) (y * sy) (width * sx) (height * sy)
  :: map (fun '(lx, ly) => Arc (lx * sx) (ly * sy) 3) (landmarks face).

(** The drawing part of the [try] block: clear, then every face. *)
Definition draw_overlay (cw ch sx sy : Q) (preds : list FaceDetection) : list DrawCmd :=
  ClearRect 0 0 cw ch :: flat_map (draw_face sx sy) preds.


(** The component state: the React state hooks of [CameraComponent] plus
    the parts of the DOM it reads and writes. *)
Record Cam := mkCam {
  videoMounted : bool;               (** [videoRef.current !== null] *)
  canvasMounted : bool;              (** [canvasRef.current !== null] *)
  srcObject : option (list Track);   (** [videoRef.current.srcObject] *)
  isStreaming : bool;
  error : option string;
  model : option nat;                (** the [BlazeFaceModel] handle *)
  isLoading : bool;
  predictions : list FaceDetection;
  debugInfo : string;
  frameCount : nat;
  overlay : list DrawCmd             (** what has been drawn on the canvas *)
}.

Definition initial_cam : Cam :=
  mkCam true true None false None None true [] EmptyString 0 [].

(** [stopCamera].  The second component is the [tracks] array of the
    stream that was attached, as the call leaves it. *)
Definition stopCamera (s : Cam) : Cam * list Track :=
  match videoMounted s, srcObject s with
  | true, Some tracks =>
      let tracks' := map stop_track tracks in
      (mkCam (videoMounted s) (canvasMounted s) None false (error s) (model s)
             (isLoading s) [] EmptyString (frameCount s) (overlay s),
       tracks')
  | _, _ => (s, [])
  end.

(** How [tf.setBackend] and [blazeface.load()] settle. *)
Inductive LoadOutcome :=
| BackendFails
| LoadFails
| Loaded (m : nat).

Definition load_error_msg : string := "Failed to load the face detection model.".

(** [loadModel]: [setModel] is reached only after both awaits succeed. *)
Definition loadModel (s : Cam) (o : LoadOutcome) : Cam :=
  match o with
  | Loaded m =>
      mkCam (videoMounted s) (canvasMounted s) (srcObject s) (isStreaming s)
            (error s) (Some m) false (predictions s) (debugInfo s)
            (frameCount s) (overlay s)
  | BackendFails | LoadFails =>
      mkCam (videoMounted s) (canvasMounted s) (srcObject s) (isStreaming s)
            (Some load_error_msg) (model s) false (predictions s) (debugInfo s)
            (frameCount s) (overlay s)
  end.

Definition camera_error_msg : string :=
  "Failed to access the camera. Please make sure you have given permission.".

(** [startCamera]: [r] is how [getUserMedia] settles ([None]: rejected). *)
Definition startCamera (s : Cam) (r : option (list Track)) : Cam :=
  match r with
  | Some stream =>
      if videoMounted s then
        mkCam (videoMounted s) (canvasMounted s) (Some stream) (isStreaming s)
              None (model s) (isLoading s) (predictions s) (debugInfo s)
              (frameCount s) (overlay s)
      else s
  | None =>
      mkCam (videoMounted s) (canvasMounted s) (srcObject s) (isStreaming s)
            (Some camera_error_msg) (model s) false (predictions s) (debugInfo s)
            (frameCount s) (overlay s)
  end.

(** [onloadedmetadata]: installed only on an attached stream. *)
Definition onLoadedMetadata (s : Cam) : Cam :=
  match srcObject s with
  | Some _ =>
      mkCam (videoMounted s) (canvasMounted s) (srcObject s) true
            (error s) (model s) (isLoading s) (predictions s) (debugInfo s)
            (frameCount s) (overlay s)
  | None => s
  end.

(** How [model.estimateFaces] settles. *)
Inductive Inference :=
| InfOk (preds : list FaceDetection)
| InfThrows (err : string).

Definition detect_error_msg : string := "Face detection failed. Please try again.".

Section Detect.

(** [JSON.stringify] of a prediction array and the decimal rendering of a
    number, used only to build the debug text. *)
Variable stringify : list FaceDetection -> string.
Variable show_nat : nat -> string.

(** The first half of [detectFaces], up to [await model.estimateFaces]. *)
Inductive Begin :=
| Skip                            (** guard false, or no 2d context *)
| NotReady                        (** [requestAnimationFrame(detectFaces)] *)
| Infer (cw ch sx sy : Q).        (** inference started with these scales *)

Definition detect_begin (s : Cam) (v : Video) : Begin :=
  if videoMounted s && is_set (model s) && canvasMounted s then
    if negb (haveEnoughData v) then NotReady
    else Infer (clientWidth v) (clientHeight v) (scaleX v) (scaleY v)
  else Skip.

(** The rest of [detectFaces], once the inference has settled. *)
Definition detect_end (s : Cam) (cw ch sx sy : Q) (r : Inference) : Cam :=
  match r with
  | InfOk preds =>
      let n := S (frameCount s) in
      mkCam (videoMounted s) (canvasMounted s) (srcObject s) (isStreaming s)
            (error s) (model s) (isLoading s) preds
            ("Frame: " ++ show_nat n ++ ", Raw predictions: " ++ stringify preds)%string
            n (draw_overlay cw ch sx sy preds)
  | InfThrows err =>
      mkCam (videoMounted s) (canvasMounted s) (srcObject s) (isStreaming s)
            (Some detect_error_msg) (model s) (isLoading s) (predictions s)
            ("Error: " ++ err)%string (frameCount s) (overlay s)
  end.

End Detect.


(** ** The detection loop of [camera.tsx]

    The [useEffect] on [[isStreaming, model]] runs [runDetection], an [async]
    function that awaits [detectFaces()] and only then stores
    [timeoutId = setTimeout(runDetection, 100)]; its cleanup clears the
    instance's [timeoutId].  A [detectFaces] call suspended at
    [await model.estimateFaces] is an entry of [pending]; it settles on an
    [EvResolve] event.  Each run of the effect is an instance with its own
    [timeoutId] variable; [effInst] is the current one. *)

Inductive Origin :=
| FromLoop (inst : nat)    (** called by [runDetection] of that instance *)
| FromRaf.                 (** called by [requestAnimationFrame] *)

(** Observable effects: an inference call, an overlay repaint, a stop. *)
Inductive Obs :=
| OInfer
| ODraw (cmds : list DrawCmd)
| OStopped.

Record World := mkWorld {
  cam : Cam;
  video : Video;
  timers : list (nat * nat);       (** pending [setTimeout]s: (id, instance) *)
  nextId : nat;
  effInst : nat;
  timeoutId : option nat;          (** [timeoutId] of the current instance *)
  pending : list (Origin * (Q * Q * Q * Q));  (** in flight, oldest first *)
  rafQueue : nat;                  (** queued [requestAnimationFrame(detectFaces)] *)
  log : list Obs                   (** newest first *)
}.

Definition with_cam (w : World) (c : Cam) : World :=
  mkWorld c (video w) (timers w) (nextId w) (effInst w) (timeoutId w)
          (pending w) (rafQueue w) (log w).
Definition with_video (w : World) (v : Video) : World :=
  mkWorld (cam w) v (timers w) (nextId w) (effInst w) (timeoutId w)
          (pending w) (rafQueue w) (log w).
Definition with_timers (w : World) (ts : list (nat * nat)) : World :=
  mkWorld (cam w) (video w) ts (nextId w) (effInst w) (timeoutId w)
          (pending w) (rafQueue w) (log w).
Definition with_pending (w : World) (p : list (Origin * (Q * Q * Q * Q))) : World :=
  mkWorld (cam w) (video w) (timers w) (nextId w) (effInst w) (timeoutId w)
          p (rafQueue w) (log w).
Definition with_raf (w : World) (n : nat) : World :=
  mkWorld (cam w) (video w) (timers w) (nextId w) (effInst w) (timeoutId w)
          (pending w) n (log w).
Definition emit (w : World) (o : Obs) : World :=
  mkWorld (cam w) (video w) (timers w) (nextId w) (effInst w) (timeoutId w)
          (pending w) (rafQueue w) (o :: log w).

(** [timeoutId = setTimeout(runDetection, 100)] inside instance [inst]. *)
Definition set_timer (w : World) (inst : nat) : World :=
  let id := nextId w in
  mkWorld (cam w) (video w) (timers w ++ [(id, inst)]) (S id) (effInst w)
          (if Nat.eqb inst (effInst w) then Some id else timeoutId w)
          (pending w) (rafQueue w) (log w).

(** [clearTimeout(id)] *)
Definition clear_timer (ts : list (nat * nat)) (id : nat) : list (nat * nat) :=
  filter (fun '(i, _) => negb (Nat.eqb i id)) ts.

(** [runDetection] of instance [inst], up to its first suspension. *)
Definition runDetection (w : World) (inst : nat) : World :=
  match detect_begin (cam w) (video w) with
  | Skip => set_timer w inst
  | NotReady => set_timer (with_raf w (S (rafQueue w))) inst
  | Infer cw ch sx sy =>
      emit (with_pending w (pending w ++ [(FromLoop inst, (cw, ch, sx, sy))])) OInfer
  end.

(** An animation frame runs one queued [detectFaces]. *)
Definition runRaf (w : World) : World :=
  match rafQueue w with
  | O => w
  | S n =>
      let w := with_raf w n in
      match detect_begin (cam w) (video w) with
      | Skip => w
      | NotReady => with_raf w (S n)
      | Infer cw ch sx sy =>
          emit (with_pending w (pending w ++ [(FromRaf, (cw, ch, sx, sy))])) OInfer
      end
  end.

Section Loop.

Variable stringify : list FaceDetection -> string.
Variable show_nat : nat -> string.

(** The oldest in-flight [estimateFaces] settles with [r]: the rest of
    [detectFaces] runs, then the rest of [runDetection] if it was the caller. *)
Definition resolve (w : World) (r : Inference) : World :=
  match pending w with
  | [] => w
  | (o, (cw, ch, sx, sy)) :: rest =>
      let w1 := with_pending (with_cam w (detect_end stringify show_nat (cam w) cw ch sx sy r)) rest in
      let w2 := match r with
                | InfOk preds => emit w1 (ODraw (draw_overlay cw ch sx sy preds))
                | InfThrows _ => w1
                end in
      match o with
      | FromLoop inst => set_timer w2 inst
      | FromRaf => w2
      end
  end.

(** A [setTimeout] callback fires. *)
Definition fire (w : World) (id : nat) : World :=
  match find (fun '(i, _) => Nat.eqb i id) (timers w) with
  | Some (_, inst) => runDetection (with_timers w (clear_timer (timers w) id)) inst
  | None => w
  end.

Definition same_model (a b : option nat) : bool :=
  match a, b with
  | Some x, Some y => Nat.eqb x y
  | None, None => true
  | _, _ => false
  end.

(** React re-runs the effect when [isStreaming] or [model] changed:
    cleanup of the old instance, then the body of the new one. *)
Definition sync_effect (before w : World) : World :=
  if Bool.eqb (isStreaming (cam before)) (isStreaming (cam w))
     && same_model (model (cam before)) (model (cam w))
  then w
  else
    let ts := match timeoutId w with
              | Some t => clear_timer (timers w) t
              | None => timers w
              end in
    let w' := mkWorld (cam w) (video w) ts (nextId w) (S (effInst w)) None
                      (pending w) (rafQueue w) (log w) in
    if isStreaming (cam w') && is_set (model (cam w'))
    then runDetection w' (effInst w')
    else w'.

Inductive Event :=
| EvLoad (o : LoadOutcome)               (** [loadModel] settles *)
| EvGetUserMedia (r : option (list Track))  (** [startCamera] settles *)
| EvMetadata                             (** [onloadedmetadata] *)
| EvStop                                 (** Stop Camera *)
| EvVideo (v : Video)                    (** the video element changes *)
| EvFire (id : nat)                      (** a timer fires *)
| EvFrame                                (** an animation frame *)
| EvResolve (r : Inference).             (** the oldest inference settles *)

(** Setting [srcObject = null] reloads the media element: its ready state
    drops to [HAVE_NOTHING]. *)
Definition unload (v : Video) : Video :=
  mkVideo (clientWidth v) (clientHeight v) (videoWidth v) (videoHeight v) false.

Definition step (w : World) (e : Event) : World :=
  match e with
  | EvLoad o => sync_effect w (with_cam w (loadModel (cam w) o))
  | EvGetUserMedia r => sync_effect w (with_cam w (startCamera (cam w) r))
  | EvMetadata => sync_effect w (with_cam w (onLoadedMetadata (cam w)))
  | EvStop =>
      if videoMounted (cam w) && is_set (srcObject (cam w)) then
        sync_effect w (emit (with_video (with_cam w (fst (stopCamera (cam w))))
                                        (unload (video w))) OStopped)
      else w
  | EvVideo v => with_video w v
  | EvFire id => fire w id
  | EvFrame => runRaf w
  | EvResolve r => resolve w r
  end.

Definition run (w : World) (es : list Event) : World := fold_left step es w.

End Loop.

End Camera.

(** ** The cropped-face variant of the camera component *)
Module Cropped.

(** A canvas: its integer dimensions and, for the crops, the one
    [drawImage] call made on it (source rectangle, then destination). *)
Record DrawImage := mkDrawImage {
  sx_ : Q; sy_ : Q; sw_ : Q; sh_ : Q;
  dx_ : Q; dy_ : Q; dw_ : Q; dh_ : Q
}.

Record Canvas := mkCanvas {
  canvasWidth : Z;
  canvasHeight : Z;
  drawn : option DrawImage
}.

(** [canvas.width = q]: the IDL attribute is an [unsigned long], so [q] is
    truncated and taken modulo 2^32; a value above 2^31 - 1 sets the
    default ([300] for the width, [150] for the height). *)
Definition to_dim (default : Z) (q : Q) : Z :=
  let t := Z.modulo (Z.quot (Qnum q) (Zpos (Qden q))) (2 ^ 32) in
  if (t <=? 2147483647)%Z then t else default.

(** [document.createElement('canvas')] *)
Definition fresh_canvas : Canvas := mkCanvas 300 150 None.

(** [const scaleFactor = 2] and [const yScalerPos = 0.85] *)
Definition scaleFactor : Q := 2.
Definition yScalerPos : Q := 85 # 100.

(** [cropFace], for any values of the two multipliers.  [has2d] says
    whether [getContext('2d')] returned a context; for a canvas just
    created it always does. *)
Definition cropFace_with (factor yPos : Q) (has2d : bool) (face : FaceDetection) : Canvas :=
  if negb has2d then fresh_canvas
  else
    let '(x, y) := topLeft face in
    let width := fst (bottomRight face) - fst (topLeft face) in
    let height := snd (bottomRight face) - snd (topLeft face) in
    let scaledWidth := width * factor in
    let scaledHeight := height * factor in
    let scaledX := x - (scaledWidth - width) / 2 in
    let scaledY := y * yPos - (scaledHeight - height) / 2 in
    mkCanvas (to_dim 300 scaledWidth) (to_dim 150 scaledHeight)
      (Some (mkDrawImage scaledX scaledY scaledWidth scaledHeight
                         0 0 scaledWidth scaledHeight)).

Definition cropFace (face : FaceDetection) : Canvas :=
  cropFace_with scaleFactor yScalerPos true face.

(** The overlay drawing of one face: [yScalerPos] multiplies the box's y
    only; the landmarks use the plain scale. *)
Definition draw_face (sx sy : Q) (face : FaceDetection) : list DrawCmd :=
  let '(x, y) := topLeft face in
  let width := fst (bottomRight face) - fst (topLeft face) in
  let height := snd (bottomRight face) - snd (topLeft face) in
  StrokeRect (x * sx) (y * sy * yScalerPos) (width * sx) (height * sy)
  :: map (fun '(lx, ly) => Arc (lx * sx) (ly * sy) 3) (landmarks face).

(** A face of the landmark model's output: its keypoints. *)
Definition LmFace := list (Q * Q).

(** [interface CroppedFace]: the image is the crop canvas itself (its
    [toDataURL()] is a function of it). *)
Record CroppedFace := mkCropped {
  image : Canvas;
  cropLandmarks : list LmFace
}.

Record State := mkState {
  videoMounted : bool;
  canvasMounted : bool;
  srcObject : option (list Track);
  isStreaming : bool;
  error : option string;
  blazefaceModel : option nat;
  landmarkModel : option nat;
  isLoading : bool;
  predictions : list FaceDetection;
  croppedFaces : list CroppedFace;
  debugInfo : string;
  overlay : list DrawCmd
}.

(** [stopCamera] of this variant; the second component is the stopped
    [tracks] array. *)
Definition stopCamera (s : State) : State * list Track :=
  match videoMounted s, srcObject s with
  | true, Some tracks =>
      (mkState (videoMounted s) (canvasMounted s) None false (error s)
               (blazefaceModel s) (landmarkModel s) (isLoading s) [] []
               EmptyString (overlay s),
       map stop_track tracks)
  | _, _ => (s, [])
  end.

(** How [loadModels] settles: both models, or a failure before or after
    [setBlazefaceModel]. *)
Inductive LoadOutcome :=
| BothLoaded (b l : nat)
| BlazefaceFails (err : string)
| LandmarkFails (b : nat) (err : string).

(** [loadModels] *)
Definition loadModels (s : State) (o : LoadOutcome) : State :=
  match o with
  | BothLoaded b l =>
      mkState (videoMounted s) (canvasMounted s) (srcObject s) (isStreaming s)
              (error s) (Some b) (Some l) false (predictions s) (croppedFaces s)
              "Models loaded successfully"%string (overlay s)
  | BlazefaceFails err =>
      mkState (videoMounted s) (canvasMounted s) (srcObject s) (isStreaming s)
              (Some "Failed to load the face detection models."%string) (blazefaceModel s)
              (landmarkModel s) false (predictions s) (croppedFaces s)
              ("Error loading models: " ++ err)%string (overlay s)
  | LandmarkFails b err =>
      mkState (videoMounted s) (canvasMounted s) (srcObject s) (isStreaming s)
              (Some "Failed to load the face detection models."%string) (Some b)
              (landmarkModel s) false (predictions s) (croppedFaces s)
              ("Error loading models: " ++ err)%string (overlay s)
  end.

Definition initial_state : State :=
  mkState true true None false None None None true [] [] EmptyString [].

Definition with_overlay (s : State) (o : list DrawCmd) : State :=
  mkState (videoMounted s) (canvasMounted s) (srcObject s) (isStreaming s)
          (error s) (blazefaceModel s) (landmarkModel s) (isLoading s)
          (predictions s) (croppedFaces s) (debugInfo s) o.

Definition set_failure (s : State) (err : string) : State :=
  mkState (videoMounted s) (canvasMounted s) (srcObject s) (isStreaming s)
          (Some Camera.detect_error_msg) (blazefaceModel s) (landmarkModel s)
          (isLoading s) (predictions s) (croppedFaces s) ("Error: " ++ err)%string
          (overlay s).

Section Detect.

(** The landmark model's [estimateFaces] on a crop: its faces, or the
    message of the exception it throws. *)
Variable landmark_call : Canvas -> (string + list LmFace).
(** The debug text built after a successful cycle. *)
Variable debug_text : list FaceDetection -> string.

(** The [for (const face of predictions)] loop: the drawing commands it
    issued and either the thrown message or [newCroppedFaces]. *)
Fixpoint faces_loop (sx sy : Q) (preds : list FaceDetection)
  : list DrawCmd * (string + list CroppedFace) :=
  match preds with
  | [] => ([], inr [])
  | face :: rest =>
      let cmds := draw_face sx sy face in
      let crop := cropFace face in
      match landmark_call crop with
      | inl err => (cmds, inl err)
      | inr lms =>
          let '(cmds', r) := faces_loop sx sy rest in
          (cmds ++ cmds',
           match r with
           | inl err => inl err
           | inr cfs => inr (mkCropped crop lms :: cfs)
           end)
      end
  end.

(** [detectFaces] run to completion, given how the blazeface call settles,
    when no other event comes between its steps (the landmark calls answer
    as [landmark_call]).  Cycles of this variant do interleave; the
    step-by-step model is [CroppedRun], and the lemma
    [CroppedRunFacts.detect_cycle_uninterrupted] shows that this function
    is what [CroppedRun] computes for a cycle left to run on its own.
    Assigning [canvas.width] resets the canvas bitmap, so a cycle that
    reaches its inference starts from an empty overlay. *)
Definition detect_cycle (s : State) (v : Video) (r : Camera.Inference) : State :=
  if videoMounted s && is_set (blazefaceModel s) && canvasMounted s
     && is_set (landmarkModel s) then
    if negb (haveEnoughData v) then s
    else
      let sx := Camera.scaleX v in
      let sy := Camera.scaleY v in
      match r with
      | Camera.InfThrows err => set_failure (with_overlay s []) err
      | Camera.InfOk preds =>
          let s1 := mkState (videoMounted s) (canvasMounted s) (srcObject s)
                      (isStreaming s) (error s) (blazefaceModel s)
                      (landmarkModel s) (isLoading s) preds (croppedFaces s)
                      (debugInfo s) [ClearRect 0 0 (clientWidth v) (clientHeight v)] in
          let '(cmds, res) := faces_loop sx sy preds in
          match res with
          | inl err => set_failure (with_overlay s1 (overlay s1 ++ cmds)) err
          | inr cfs =>
              mkState (videoMounted s1) (canvasMounted s1) (srcObject s1)
                      (isStreaming s1) (error s1) (blazefaceModel s1)
                      (landmarkModel s1) (isLoading s1) preds cfs
                      (debug_text preds) (overlay s1 ++ cmds)
          end
      end
  else s.

End Detect.

(** ** The detection loop of this variant

    Here [runDetection] calls [detectFaces()] without awaiting it and
    stores [timeoutId = setTimeout(runDetection, 600)] at once.  Only the
    scheduling is modelled here: a cycle suspended in one of its awaits
    (the blazeface call or a per-face landmark call) counts in [inflight]
    until it has run to completion.  [CroppedRun] below follows each
    cycle's steps and the state they write. *)

Record Loop := mkLoop {
  lstate : State;
  lvideo : Video;
  ltimers : list nat;
  lnext : nat;
  ltimeoutId : option nat;
  inflight : nat;
  lraf : nat
}.

(** The first half of [detectFaces]: the guard and the ready check. *)
Definition detect_begin (s : State) (v : Video) : Camera.Begin :=
  if videoMounted s && is_set (blazefaceModel s) && canvasMounted s
     && is_set (landmarkModel s) then
    if negb (haveEnoughData v) then Camera.NotReady
    else Camera.Infer (clientWidth v) (clientHeight v) (Camera.scaleX v) (Camera.scaleY v)
  else Camera.Skip.

Definition set_timer (l : Loop) : Loop :=
  mkLoop (lstate l) (lvideo l) (ltimers l ++ [lnext l]) (S (lnext l))
         (Some (lnext l)) (inflight l) (lraf l).

(** [runDetection]: [detectFaces()] runs to its first await, then the
    next call is scheduled whatever the state of that cycle. *)
Definition runDetection (l : Loop) : Loop :=
  let l1 := match detect_begin (lstate l) (lvideo l) with
            | Camera.Skip => l
            | Camera.NotReady =>
                mkLoop (lstate l) (lvideo l) (ltimers l) (lnext l)
                       (ltimeoutId l) (inflight l) (S (lraf l))
            | Camera.Infer _ _ _ _ =>
                mkLoop (lstate l) (lvideo l) (ltimers l) (lnext l)
                       (ltimeoutId l) (S (inflight l)) (lraf l)
            end in
  set_timer l1.

(** The effect body: [if (isStreaming && blazefaceModel && landmarkModel)]. *)
Definition effect_start (l : Loop) : Loop :=
  if isStreaming (lstate l) && is_set (blazefaceModel (lstate l))
     && is_set (landmarkModel (lstate l))
  then runDetection l else l.

Inductive LoopEvent :=
| LFire (id : nat)        (** a timer fires *)
| LDone.                  (** the oldest suspended cycle runs to its end *)

Definition lstep (l : Loop) (e : LoopEvent) : Loop :=
  match e with
  | LFire id =>
      if existsb (Nat.eqb id) (ltimers l) then
        runDetection (mkLoop (lstate l) (lvideo l)
                             (filter (fun i => negb (Nat.eqb i id)) (ltimers l))
                             (lnext l) (ltimeoutId l) (inflight l) (lraf l))
      else l
  | LDone =>
      mkLoop (lstate l) (lvideo l) (ltimers l) (lnext l) (ltimeoutId l)
             (Nat.pred (inflight l)) (lraf l)
  end.

Definition lrun (l : Loop) (es : list LoopEvent) : Loop := fold_left lstep es l.

End Cropped.

(** ** The cropped-face variant, step by step

    [detectFaces] of this variant suspends at the blazeface call and then
    at one landmark call per face; [runDetection] does not wait for it, so
    several calls can be suspended at once and their steps interleave.
    Each suspended call is kept with the point where it waits; an event
    settles one awaited call and runs that call up to its next await or
    its end.  The lifecycle of the component (loading, starting and
    stopping the camera, the metadata handler) and the detection effect
    are modelled as in [camera.tsx]. *)
Module CroppedRun.
Import Cropped.

(** Where a suspended [detectFaces] call waits.  [AtBlaze]: at
    [blazefaceModel.estimateFaces], with the canvas size and the scales
    computed before it.  [AtLandmark]: at the landmark call on the crop of
    [face], with the blazeface output [preds], the faces still to do and
    [newCroppedFaces] so far. *)
Inductive Await :=
| AtBlaze (cw ch sx sy : Q)
| AtLandmark (sx sy : Q) (preds : list FaceDetection) (face : FaceDetection)
             (rest : list FaceDetection) (acc : list CroppedFace).

Fixpoint find_cycle (c : nat) (l : list (nat * Await)) : option Await :=
  match l with
  | [] => None
  | (i, a) :: l' => if Nat.eqb i c then Some a else find_cycle c l'
  end.

(** Move call [c] to its next await ([Some]) or drop it ([None]). *)
Definition set_cycle (c : nat) (oa : option Await) (l : list (nat * Await))
  : list (nat * Await) :=
  match oa with
  | None => filter (fun p => negb (Nat.eqb (fst p) c)) l
  | Some a => map (fun p => if Nat.eqb (fst p) c then (c, a) else p) l
  end.

(** [setPredictions(predictions)] and the canvas after [clearRect]. *)
Definition with_predictions (s : State) (p : list FaceDetection) (o : list DrawCmd) : State :=
  mkState (videoMounted s) (canvasMounted s) (srcObject s) (isStreaming s)
          (error s) (blazefaceModel s) (landmarkModel s) (isLoading s)
          p (croppedFaces s) (debugInfo s) o.

(** [setCroppedFaces(newCroppedFaces)] and [setDebugInfo(...)]. *)
Definition finish (s : State) (cfs : list CroppedFace) (dbg : string) : State :=
  mkState (videoMounted s) (canvasMounted s) (srcObject s) (isStreaming s)
          (error s) (blazefaceModel s) (landmarkModel s) (isLoading s)
          (predictions s) cfs dbg (overlay s).

Definition with_error (s : State) (e : option string) (loading : bool) : State :=
  mkState (videoMounted s) (canvasMounted s) (srcObject s) (isStreaming s)
          e (blazefaceModel s) (landmarkModel s) loading
          (predictions s) (croppedFaces s) (debugInfo s) (overlay s).

(** [startCamera] of this variant; [r] is how [getUserMedia] settles. *)
Definition startCamera (s : State) (r : option (list Track)) : State :=
  match r with
  | Some stream =>
      if videoMounted s then
        mkState (videoMounted s) (canvasMounted s) (Some stream) (isStreaming s)
                None (blazefaceModel s) (landmarkModel s) (isLoading s)
                (predictions s) (croppedFaces s) (debugInfo s) (overlay s)
      else s
  | None => with_error s (Some Camera.camera_error_msg) false
  end.

(** [onloadedmetadata]: installed only on an attached stream. *)
Definition onLoadedMetadata (s : State) : State :=
  match srcObject s with
  | Some _ =>
      mkState (videoMounted s) (canvasMounted s) (srcObject s) true
              (error s) (blazefaceModel s) (landmarkModel s) (isLoading s)
              (predictions s) (croppedFaces s) (debugInfo s) (overlay s)
  | None => s
  end.

Record World := mkWorld {
  st : State;
  video : Video;
  timers : list (nat * nat);     (** pending [setTimeout]s: (id, effect instance) *)
  nextTimer : nat;
  inst : nat;                    (** the current instance of the detection effect *)
  timeoutId : option nat;        (** the [timeoutId] of the current instance *)
  cycles : list (nat * Await);   (** suspended [detectFaces] calls *)
  nextCycle : nat;
  rafQueue : nat                 (** queued [requestAnimationFrame(detectFaces)] *)
}.

Definition with_st (w : World) (s : State) : World :=
  mkWorld s (video w) (timers w) (nextTimer w) (inst w) (timeoutId w)
          (cycles w) (nextCycle w) (rafQueue w).

Definition with_cycle (w : World) (s : State) (c : nat) (oa : option Await) : World :=
  mkWorld s (video w) (timers w) (nextTimer w) (inst w) (timeoutId w)
          (set_cycle c oa (cycles w)) (nextCycle w) (rafQueue w).

(** [detectFaces] up to its first await.  [canvas.width = ...] resets the
    canvas bitmap. *)
Definition detect_start (w : World) : World :=
  match detect_begin (st w) (video w) with
  | Camera.Skip => w
  | Camera.NotReady =>
      mkWorld (st w) (video w) (timers w) (nextTimer w) (inst w) (timeoutId w)
              (cycles w) (nextCycle w) (S (rafQueue w))
  | Camera.Infer cw ch sx sy =>
      mkWorld (with_overlay (st w) []) (video w) (timers w) (nextTimer w) (inst w)
              (timeoutId w) (cycles w ++ [(nextCycle w, AtBlaze cw ch sx sy)])
              (S (nextCycle w)) (rafQueue w)
  end.

(** [runDetection] of effect instance [k]: [detectFaces()] without
    [await], then [timeoutId = setTimeout(runDetection, 600)]. *)
Definition runDetection (w : World) (k : nat) : World :=
  let w1 := detect_start w in
  let id := nextTimer w1 in
  mkWorld (st w1) (video w1) (timers w1 ++ [(id, k)]) (S id) (inst w1)
          (if Nat.eqb k (inst w1) then Some id else timeoutId w1)
          (cycles w1) (nextCycle w1) (rafQueue w1).

Definition same_deps (a b : State) : bool :=
  Bool.eqb (isStreaming a) (isStreaming b)
  && Camera.same_model (blazefaceModel a) (blazefaceModel b)
  && Camera.same_model (landmarkModel a) (landmarkModel b).

(** React re-runs the effect when [isStreaming], [blazefaceModel] or
    [landmarkModel] changed ([detectFaces] changes with the two models):
    [clearTimeout(timeoutId)] of the old instance, then the body of the
    new one. *)
Definition sync_effect (before w : World) : World :=
  if same_deps (st before) (st w) then w
  else
    let tm := match timeoutId w with
              | Some id => filter (fun p => negb (Nat.eqb (fst p) id)) (timers w)
              | None => timers w
              end in
    let w' := mkWorld (st w) (video w) tm (nextTimer w) (S (inst w)) None
                      (cycles w) (nextCycle w) (rafQueue w) in
    if isStreaming (st w') && is_set (blazefaceModel (st w'))
       && is_set (landmarkModel (st w'))
    then runDetection w' (inst w') else w'.

Inductive Event :=
| EvLoad (o : LoadOutcome)                (** [loadModels] settles *)
| EvGetUserMedia (r : option (list Track)) (** [startCamera]'s request settles *)
| EvMetadata                              (** [onloadedmetadata] *)
| EvStop                                  (** Stop Camera *)
| EvVideo (v : Video)                     (** the video's size or readiness changes *)
| EvFire (id : nat)                       (** a timer fires *)
| EvFrame                                 (** a queued animation frame runs *)
| EvBlaze (c : nat) (r : Camera.Inference) (** call [c]'s blazeface call settles *)
| EvLandmark (c : nat) (r : string + list LmFace). (** call [c]'s landmark call settles *)

Section Step.

(** The debug text built after a successful cycle (it holds the time). *)
Variable debug_text : list FaceDetection -> string.

(** The [for] loop from the faces [todo] on: draw the next face and
    await its landmark call, or, with none left, [setCroppedFaces] and
    [setDebugInfo]. *)
Definition advance (s : State) (sx sy : Q) (preds todo : list FaceDetection)
  (acc : list CroppedFace) : State * option Await :=
  match todo with
  | [] => (finish s acc (debug_text preds), None)
  | face :: rest =>
      (with_overlay s (overlay s ++ draw_face sx sy face),
       Some (AtLandmark sx sy preds face rest acc))
  end.

Definition step (w : World) (e : Event) : World :=
  match e with
  | EvLoad o => sync_effect w (with_st w (loadModels (st w) o))
  | EvGetUserMedia r => sync_effect w (with_st w (startCamera (st w) r))
  | EvMetadata => sync_effect w (with_st w (onLoadedMetadata (st w)))
  | EvStop =>
      if videoMounted (st w) && is_set (srcObject (st w))
      then sync_effect w (with_st w (fst (stopCamera (st w))))
      else w
  | EvVideo v =>
      mkWorld (st w) v (timers w) (nextTimer w) (inst w) (timeoutId w)
              (cycles w) (nextCycle w) (rafQueue w)
  | EvFire id =>
      match find (fun p => Nat.eqb (fst p) id) (timers w) with
      | Some (_, k) =>
          runDetection (mkWorld (st w) (video w)
                                (filter (fun p => negb (Nat.eqb (fst p) id)) (timers w))
                                (nextTimer w) (inst w) (timeoutId w) (cycles w)
                                (nextCycle w) (rafQueue w)) k
      | None => w
      end
  | EvFrame =>
      match rafQueue w with
      | O => w
      | S n =>
          detect_start (mkWorld (st w) (video w) (timers w) (nextTimer w) (inst w)
                                (timeoutId w) (cycles w) (nextCycle w) n)
      end
  | EvBlaze c r =>
      match find_cycle c (cycles w) with
      | Some (AtBlaze cw ch sx sy) =>
          match r with
          | Camera.InfThrows err => with_cycle w (set_failure (st w) err) c None
          | Camera.InfOk preds =>
              let '(s', oa) := advance (with_predictions (st w) preds [ClearRect 0 0 cw ch])
                                       sx sy preds preds [] in
              with_cycle w s' c oa
          end
      | _ => w
      end
  | EvLandmark c r =>
      match find_cycle c (cycles w) with
      | Some (AtLandmark sx sy preds face rest acc) =>
          match r with
          | inl err => with_cycle w (set_failure (st w) err) c None
          | inr lms =>
              let '(s', oa) := advance (st w) sx sy preds rest
                                       (acc ++ [mkCropped (cropFace face) lms]) in
              with_cycle w s' c oa
          end
      | _ => w
      end
  end.

Definition run (w : World) (es : list Event) : World := fold_left step es w.

End Step.




Definition is_load (e : Event) : bool :=
  match e with EvLoad _ => true | _ => false end.





End CroppedRun.

(** ** The results panel of [camera.tsx]

    Each entry reads [face.probability[0]], the two corners and
    [face.landmarks[0]] to [face.landmarks[5]]; reading a coordinate of a
    missing landmark ([undefined[0]]) throws a [TypeError], modelled as
    [None]. *)
Module Panel.

Definition landmark_at (face : FaceDetection) (k : nat) : option (Q * Q) :=
  nth_error (landmarks face) k.

(** The values one list item displays, in order. *)
Definition face_entry (face : FaceDetection) : option (list Q) :=
  match landmark_at face 0, landmark_at face 1, landmark_at face 2,
        landmark_at face 3, landmark_at face 4, landmark_at face 5 with
  | Some (a0, b0), Some (a1, b1), Some (a2, b2),
    Some (a3, b3), Some (a4, b4), Some (a5, b5) =>
      Some [probability face; fst (topLeft face); snd (topLeft face);
            fst (bottomRight face); snd (bottomRight face);
            a0; b0; a1; b1; a2; b2; a3; b3; a4; b4; a5; b5]
  | _, _, _, _, _, _ => None
  end.

(** [predictions.map(...)]: the first throwing entry aborts the render. *)
Fixpoint entries (preds : list FaceDetection) : option (list (list Q)) :=
  match preds with
  | [] => Some []
  | face :: rest =>
      match face_entry face, entries rest with
      | Some e, Some es => Some (e :: es)
      | _, _ => None
      end
  end.

Inductive PanelView :=
| Hidden                              (** [isStreaming && model] is false *)
| NoFaces                             (** "No faces detected" *)
| Faces (items : list (list Q)).

(** The right-hand column: [None] when rendering throws. *)
Definition render_panel (s : Camera.Cam) : option PanelView :=
  if Camera.isStreaming s && is_set (Camera.model s) then
    match Camera.predictions s with
    | [] => Some NoFaces
    | preds =>
        match entries preds with
        | Some items => Some (Faces items)
        | None => None
        end
    end
  else Some Hidden.

End Panel.

(** ** [src/components/face-detection-component.tsx]

    The face-api.js component.  Its networks, [detectAllFaces] and the
    drawing helpers are opaque; what is modelled is the state it keeps and
    how its [requestAnimationFrame] loop is driven. *)
Module FaceApi.

Record FState := mkF {
  fVideoMounted : bool;
  fCanvasMounted : bool;
  fSrcObject : option (list Track);
  fIsStreaming : bool;
  fError : option string;
  faceDescriptors : list (list Q);
  netsLoaded : nat                (** networks [loadModels] has loaded, 0 to 3 *)
}.

Definition initial_fstate : FState := mkF true true None false None [] 0.

(** [startCamera]: streaming is set as soon as the stream is attached. *)
Definition startCamera (s : FState) (r : option (list Track)) : FState :=
  match r with
  | Some stream =>
      if fVideoMounted s then
        mkF (fVideoMounted s) (fCanvasMounted s) (Some stream) true None
            (faceDescriptors s) (netsLoaded s)
      else s
  | None =>
      mkF (fVideoMounted s) (fCanvasMounted s) (fSrcObject s) (fIsStreaming s)
          (Some Camera.camera_error_msg) (faceDescriptors s) (netsLoaded s)
  end.

(** [stopCamera] *)
Definition stopCamera (s : FState) : FState :=
  match fVideoMounted s, fSrcObject s with
  | true, Some _ =>
      mkF (fVideoMounted s) (fCanvasMounted s) None false (fError s) [] (netsLoaded s)
  | _, _ => s
  end.

Inductive FObs :=
| FInfer          (** [faceapi.detectAllFaces(...)] called *)
| FDraw           (** detections and landmarks drawn on the canvas *)
| FStopped.

(** The effect on [[isStreaming]] runs [detectFaces]; a call suspended at
    its [await] is an entry of [fInflight] (the effect instance it belongs
    to); [frames] are the requested animation frames. *)
Record FWorld := mkFW {
  fs : FState;
  frames : list (nat * nat);      (** (frame id, instance) *)
  fNext : nat;
  fInst : nat;
  animationFrameId : option nat;  (** of the current instance *)
  fInflight : list nat;
  flog : list FObs                (** newest first *)
}.

(** [detectFaces] up to its [await]. *)
Definition detectFaces (w : FWorld) (inst : nat) : FWorld :=
  if fVideoMounted (fs w) && fCanvasMounted (fs w) then
    mkFW (fs w) (frames w) (fNext w) (fInst w) (animationFrameId w)
         (fInflight w ++ [inst]) (FInfer :: flog w)
  else w.

(** The oldest [detectAllFaces] call resolves with the descriptors: the
    rest of [detectFaces] draws, stores them and requests the next frame. *)
Definition resolve (w : FWorld) (descs : list (list Q)) : FWorld :=
  match fInflight w with
  | [] => w
  | inst :: rest =>
      let s := fs w in
      let id := fNext w in
      mkFW (mkF (fVideoMounted s) (fCanvasMounted s) (fSrcObject s) (fIsStreaming s)
                (fError s) descs (netsLoaded s))
           (frames w ++ [(id, inst)]) (S id) (fInst w)
           (if Nat.eqb inst (fInst w) then Some id else animationFrameId w)
           rest (FDraw :: flog w)
  end.

(** The oldest call rejects: nothing catches it, the chain ends there. *)
Definition reject (w : FWorld) : FWorld :=
  mkFW (fs w) (frames w) (fNext w) (fInst w) (animationFrameId w)
       (tl (fInflight w)) (flog w).

(** An animation frame [id] runs its callback. *)
Definition frame (w : FWorld) (id : nat) : FWorld :=
  match find (fun '(i, _) => Nat.eqb i id) (frames w) with
  | Some (_, inst) =>
      detectFaces (mkFW (fs w) (filter (fun '(i, _) => negb (Nat.eqb i id)) (frames w))
                        (fNext w) (fInst w) (animationFrameId w) (fInflight w) (flog w))
                  inst
  | None => w
  end.

(** Re-running the effect when [isStreaming] changed: cleanup
    ([cancelAnimationFrame]), then [if (isStreaming) detectFaces()]. *)
Definition sync_effect (before w : FWorld) : FWorld :=
  if Bool.eqb (fIsStreaming (fs before)) (fIsStreaming (fs w)) then w
  else
    let fr := match animationFrameId w with
              | Some id => filter (fun '(i, _) => negb (Nat.eqb i id)) (frames w)
              | None => frames w
              end in
    let w' := mkFW (fs w) fr (fNext w) (S (fInst w)) None (fInflight w) (flog w) in
    if fIsStreaming (fs w') then detectFaces w' (fInst w') else w'.

Inductive FEvent :=
| FLoadNet                         (** one [loadFromUri] resolves *)
| FStart (r : option (list Track))  (** [startCamera] settles *)
| FStop                            (** Stop Camera *)
| FFrame (id : nat)
| FResolve (descs : list (list Q))
| FReject.

Definition with_fs (w : FWorld) (s : FState) : FWorld :=
  mkFW s (frames w) (fNext w) (fInst w) (animationFrameId w) (fInflight w) (flog w).

Definition fstep (w : FWorld) (e : FEvent) : FWorld :=
  match e with
  | FLoadNet =>
      let s := fs w in
      with_fs w (mkF (fVideoMounted s) (fCanvasMounted s) (fSrcObject s)
                     (fIsStreaming s) (fError s) (faceDescriptors s)
                     (S (netsLoaded s)))
  | FStart r => sync_effect w (with_fs w (startCamera (fs w) r))
  | FStop =>
      if fVideoMounted (fs w) && is_set (fSrcObject (fs w)) then
        let w1 := with_fs w (stopCamera (fs w)) in
        sync_effect w (mkFW (fs w1) (frames w1) (fNext w1) (fInst w1)
                            (animationFrameId w1) (fInflight w1) (FStopped :: flog w1))
      else w
  | FFrame id => frame w id
  | FResolve descs => resolve w descs
  | FReject => reject w
  end.

Definition frun (w : FWorld) (es : list FEvent) : FWorld := fold_left fstep es w.

End FaceApi.

(** ** Concrete inputs *)
Module Inputs.

(** A 640x480 video shown at 320x240. *)
Definition half_video : Video := mkVideo 320 240 640 480 true.

Definition six_landmarks : list (Q * Q) :=
  [(120, 130); (180, 130); (150, 150); (150, 175); (105, 140); (195, 140)].

Definition face_100_200 : FaceDetection :=
  mkFace (100, 100) (200, 200) 1 six_landmarks.

(** The component with its model loaded, not streaming. *)
Definition loaded_cam : Camera.Cam :=
  Camera.mkCam true true None false None (Some 1%nat) false [] EmptyString 0 [].

(** The component right after mounting. *)
Definition world0 : Camera.World :=
  Camera.mkWorld Camera.initial_cam half_video [] 0 0 None [] 0 [].

Definition camera_track : Track := mkTrack 0 true.

(** Model loaded, camera started, first inference in flight, then Stop,
    then that inference returns one face. *)
Definition stop_during_inference : list Camera.Event :=
  [Camera.EvLoad (Camera.Loaded 1); Camera.EvGetUserMedia (Some [camera_track]);
   Camera.EvMetadata; Camera.EvStop; Camera.EvResolve (Camera.InfOk [face_100_200])].

(** The cropped-face component streaming with both models loaded. *)
Definition cropped_streaming : Cropped.State :=
  Cropped.mkState true true (Some [camera_track]) true None (Some 1%nat) (Some 2%nat)
                  false [] [] EmptyString [].

Definition cropped_loop0 : Cropped.Loop :=
  Cropped.mkLoop cropped_streaming half_video [] 0 None 0 0.

(** A face whose width, 100.25, gives a crop width of 200.5. *)
Definition face_fractional : FaceDetection :=
  mkFace (0, 0) (401 # 4, 401 # 4) 1 six_landmarks.

(** A face partly above the frame. *)
Definition face_above_frame : FaceDetection :=
  mkFace (0, -10) (40, 30) 1 six_landmarks.

(** A face with only two landmarks. *)
Definition face_two_landmarks : FaceDetection :=
  mkFace (100, 100) (200, 200) 1 [(120, 130); (180, 130)].

(** The cropped-face component just mounted, and with both models loaded
    before the camera is started. *)
Definition cropped_mount : CroppedRun.World :=
  CroppedRun.mkWorld Cropped.initial_state half_video [] 0 0 None [] 0 0.

Definition cropped_ready : CroppedRun.World :=
  CroppedRun.mkWorld
    (Cropped.mkState true true None false None (Some 1%nat) (Some 2%nat) false [] []
                     EmptyString [])
    half_video [] 0 0 None [] 0 0.


End Inputs.

(** * Properties of [camera.tsx] *)
Module CameraFacts.
Import Camera Inputs.

Lemma in_draw_face_box (sx sy : Q) (face : FaceDetection) :
  In (StrokeRect (fst (topLeft face) * sx) (snd (topLeft face) * sy)
                 ((fst (bottomRight face) - fst (topLeft face)) * sx)
                 ((snd (bottomRight face) - snd (topLeft face)) * sy))
     (draw_face sx sy face).
Proof.
  destruct face as [[x y] br p ls]; simpl; left; reflexivity.
Qed.

(** C1: in a cycle that reaches the inference, the scale factors are
    displayed size over native size per axis, and every detection's box is
    drawn at its top-left corner times the factors, with its width and
    height times the factors; on a 640x480 video shown at 320x240 the box
    (100,100)-(200,200) is drawn at (50,50) with size 50x50. *)
Theorem overlay_box_scaled_per_axis (s : Cam) (v : Video) (cw ch sx sy : Q)
  (preds : list FaceDetection) (face : FaceDetection)
  (Hbegin : detect_begin s v = Infer cw ch sx sy) (Hin : In face preds) :
  sx = clientWidth v / videoWidth v /\ sy = clientHeight v / videoHeight v /\
  In (StrokeRect (fst (topLeft face) * sx) (snd (topLeft face) * sy)
                 ((fst (bottomRight face) - fst (topLeft face)) * sx)
                 ((snd (bottomRight face) - snd (topLeft face)) * sy))
     (draw_overlay cw ch sx sy preds) /\
  (exists x y w h,
      In (StrokeRect x y w h)
         (draw_overlay 320 240 (scaleX half_video) (scaleY half_video) [face_100_200])
      /\ x == 50 /\ y == 50 /\ w == 50 /\ h == 50).
Proof.
  unfold detect_begin in Hbegin.
  destruct (videoMounted s && is_set (model s) && canvasMounted s); [|discriminate].
  destruct (negb (haveEnoughData v)); [discriminate|].
  injection Hbegin as <- <- <- <-.
  split; [reflexivity|]. split; [reflexivity|]. split.
  - unfold draw_overlay. right. apply in_flat_map. exists face.
    split; [exact Hin | apply in_draw_face_box].
  - do 4 eexists. split.
    + unfold draw_overlay. right. apply in_flat_map. exists face_100_200.
      split; [left; reflexivity | apply in_draw_face_box].
    + vm_compute. repeat split; reflexivity.
Qed.

Lemma overlay_box_scaled_per_axis_witness :
  detect_begin loaded_cam half_video
    = Infer 320 240 (scaleX half_video) (scaleY half_video) /\
  In face_100_200 [face_100_200] /\
  In (StrokeRect (100 * scaleX half_video) (100 * scaleY half_video)
                 ((200 - 100) * scaleX half_video) ((200 - 100) * scaleY half_video))
     (draw_overlay 320 240 (scaleX half_video) (scaleY half_video) [face_100_200]).
Proof.
  assert (H1 : detect_begin loaded_cam half_video
                 = Infer 320 240 (scaleX half_video) (scaleY half_video))
    by reflexivity.
  assert (H2 : In face_100_200 [face_100_200]) by (left; reflexivity).
  split; [exact H1|]. split; [exact H2|].
  exact (proj1 (proj2 (proj2
    (overlay_box_scaled_per_axis loaded_cam half_video 320 240 _ _
       [face_100_200] face_100_200 H1 H2)))).
Defined.

(** A successful [loadModel]; it runs once per mount. *)
Definition loaded_ok (e : Event) : bool :=
  match e with
  | EvLoad (Loaded _) => true
  | _ => false
  end.

Lemma detect_begin_no_model (s : Cam) (v : Video) :
  model s = None -> detect_begin s v = Skip.
Proof.
  intros H. unfold detect_begin. rewrite H. simpl.
  rewrite andb_false_r. reflexivity.
Qed.

Lemma runDetection_no_model (w : World) (inst : nat) :
  model (cam w) = None ->
  cam (runDetection w inst) = cam w /\ log (runDetection w inst) = log w.
Proof.
  intros H. unfold runDetection. rewrite (detect_begin_no_model _ _ H).
  split; reflexivity.
Qed.

Lemma sync_effect_no_model (before w : World) :
  model (cam w) = None ->
  cam (sync_effect before w) = cam w /\ log (sync_effect before w) = log w.
Proof.
  intros H. unfold sync_effect.
  destruct (_ && _); [split; reflexivity|].
  simpl. rewrite H, andb_false_r. split; reflexivity.
Qed.

Section NoModel.

Variable stringify : list FaceDetection -> string.
Variable show_nat : nat -> string.

(** Without a model, no event but a successful load sets one, and none
    logs an inference call. *)
Lemma step_no_model (w : World) (e : Event) :
  model (cam w) = None -> loaded_ok e = false ->
  model (cam (step stringify show_nat w e)) = None /\
  exists fresh, log (step stringify show_nat w e) = fresh ++ log w /\ ~ In OInfer fresh.
Proof.
  intros Hm Hok.
  destruct e as [o | r | | | v | id | | r]; simpl.
  - destruct o as [ | | m]; [| | discriminate];
      (match goal with |- context [sync_effect w ?w'] =>
         destruct (sync_effect_no_model w w') as [Hc Hl]; [simpl; exact Hm|] end);
      rewrite Hc, Hl; (split; [simpl; exact Hm | exists []; split; [reflexivity | simpl; tauto]]).
  - destruct (sync_effect_no_model w (with_cam w (startCamera (cam w) r))) as [Hc Hl].
    { simpl. destruct r as [ts|]; simpl; [destruct (videoMounted (cam w))|]; exact Hm. }
    rewrite Hc, Hl. split.
    + simpl. destruct r as [ts|]; simpl; [destruct (videoMounted (cam w))|]; exact Hm.
    + exists []. split; [reflexivity | simpl; tauto].
  - destruct (sync_effect_no_model w (with_cam w (onLoadedMetadata (cam w)))) as [Hc Hl].
    { simpl. unfold onLoadedMetadata. destruct (srcObject (cam w)); exact Hm. }
    rewrite Hc, Hl. split.
    + simpl. unfold onLoadedMetadata. destruct (srcObject (cam w)); exact Hm.
    + exists []. split; [reflexivity | simpl; tauto].
  - destruct (videoMounted (cam w) && is_set (srcObject (cam w))) eqn:Hg.
    + match goal with |- context [sync_effect w ?w'] =>
        destruct (sync_effect_no_model w w') as [Hc Hl] end.
      { simpl. unfold stopCamera.
        destruct (videoMounted (cam w)), (srcObject (cam w)); exact Hm. }
      rewrite Hc, Hl. split.
      * simpl. unfold stopCamera.
        destruct (videoMounted (cam w)), (srcObject (cam w)); exact Hm.
      * exists [OStopped]. split; [reflexivity|].
        simpl. intros [H|H]; [discriminate | exact H].
    + split; [exact Hm | exists []; split; [reflexivity | simpl; tauto]].
  - split; [exact Hm | exists []; split; [reflexivity | simpl; tauto]].
  - unfold fire. destruct (find _ (timers w)) as [[i inst]|].
    + destruct (runDetection_no_model
                  (with_timers w (clear_timer (timers w) id)) inst Hm) as [Hc Hl].
      rewrite Hc, Hl. split; [exact Hm | exists []; split; [reflexivity | simpl; tauto]].
    + split; [exact Hm | exists []; split; [reflexivity | simpl; tauto]].
  - unfold runRaf. destruct (rafQueue w) as [|n].
    + split; [exact Hm | exists []; split; [reflexivity | simpl; tauto]].
    + simpl. rewrite (detect_begin_no_model _ _ Hm).
      split; [exact Hm | exists []; split; [reflexivity | simpl; tauto]].
  - unfold resolve. destruct (pending w) as [|[o [[[cw ch] sx] sy]] rest].
    + split; [exact Hm | exists []; split; [reflexivity | simpl; tauto]].
    + destruct r as [preds | err], o as [inst|]; simpl;
        (split; [exact Hm|]);
        first [ exists [ODraw (draw_overlay cw ch sx sy preds)]; split;
                [reflexivity | simpl; intros [H|H]; [discriminate | exact H]]
              | exists []; split; [reflexivity | simpl; tauto] ].
Qed.

Lemma run_no_model (w : World) (es : list Event) :
  model (cam w) = None -> (forall e, In e es -> loaded_ok e = false) ->
  model (cam (run stringify show_nat w es)) = None /\
  exists fresh, log (run stringify show_nat w es) = fresh ++ log w /\ ~ In OInfer fresh.
Proof.
  revert w. induction es as [|e es IH]; intros w Hm Hes.
  - split; [exact Hm | exists []; split; [reflexivity | simpl; tauto]].
  - simpl. destruct (step_no_model w e Hm (Hes e (or_introl eq_refl)))
      as [Hm1 [f1 [Hl1 Hn1]]].
    destruct (IH (step stringify show_nat w e) Hm1
                 (fun e' H => Hes e' (or_intror H))) as [Hm2 [f2 [Hl2 Hn2]]].
    split; [exact Hm2|]. exists (f2 ++ f1). split.
    + rewrite Hl2, Hl1, app_assoc. reflexivity.
    + rewrite in_app_iff. tauto.
Qed.

End NoModel.

(** C2: when [loadModel] fails, afterwards [isLoading] is false, the error
    is set, no model is stored, and for the rest of the session (no
    further successful load) the model stays unset and no inference is
    ever invoked. *)
Theorem load_failure_blocks_detection
  (stringify : list FaceDetection -> string) (show_nat : nat -> string)
  (w : World) (o : LoadOutcome) (es : list Event)
  (Hnone : model (cam w) = None) (Hfail : forall m, o <> Loaded m)
  (Hrest : forall e, In e es -> loaded_ok e = false) :
  let w1 := step stringify show_nat w (EvLoad o) in
  isLoading (cam w1) = false /\ error (cam w1) = Some load_error_msg /\
  model (cam w1) = None /\
  model (cam (run stringify show_nat w1 es)) = None /\
  exists fresh, log (run stringify show_nat w1 es) = fresh ++ log w1
                /\ ~ In OInfer fresh.
Proof.
  intros w1.
  assert (Hc : cam w1 = loadModel (cam w) o).
  { unfold w1. simpl.
    destruct o as [ | | m]; [| | exfalso; exact (Hfail m eq_refl)];
      unfold sync_effect; simpl; rewrite Hnone, Bool.eqb_reflx; reflexivity. }
  assert (Hm1 : model (cam w1) = None).
  { rewrite Hc. destruct o as [ | | m]; [| | exfalso; exact (Hfail m eq_refl)];
      simpl; exact Hnone. }
  split; [rewrite Hc; destruct o; reflexivity|].
  split; [rewrite Hc; destruct o as [ | | m]; [reflexivity | reflexivity |
                                              exfalso; exact (Hfail m eq_refl)]|].
  split; [exact Hm1|].
  exact (run_no_model stringify show_nat w1 es Hm1 Hrest).
Qed.

Lemma load_failure_blocks_detection_witness :
  model (cam world0) = None /\ (forall m, LoadFails <> Loaded m) /\
  (forall e, In e [EvGetUserMedia (Some [camera_track]); EvMetadata;
                   EvFire 0; EvFrame] -> loaded_ok e = false) /\
  model (cam (run (fun _ => EmptyString) (fun _ => EmptyString)
                  (step (fun _ => EmptyString) (fun _ => EmptyString) world0 (EvLoad LoadFails))
                  [EvGetUserMedia (Some [camera_track]); EvMetadata; EvFire 0; EvFrame]))
    = None.
Proof.
  assert (H1 : model (cam world0) = None) by reflexivity.
  assert (H2 : forall m, LoadFails <> Loaded m) by discriminate.
  assert (H3 : forall e, In e [EvGetUserMedia (Some [camera_track]); EvMetadata;
                               EvFire 0; EvFrame] -> loaded_ok e = false).
  { intros e He. simpl in He.
    destruct He as [<-|[<-|[<-|[<-|[]]]]]; reflexivity. }
  split; [exact H1|]. split; [exact H2|]. split; [exact H3|].
  exact (proj1 (proj2 (proj2 (proj2
    (load_failure_blocks_detection (fun _ => EmptyString) (fun _ => EmptyString)
       world0 LoadFails _ H1 H2 H3))))).
Defined.

(** C3 (defect): Stop during an in-flight inference.  The cleanup clears
    [timeoutId], which is still unset while the first cycle awaits; when the
    inference returns after the stop, the cycle stores its predictions,
    repaints the overlay and schedules a successor; firing that timer runs
    a further cycle, which finds the video unloaded and queues an
    animation-frame retry and another timer. *)
Theorem in_flight_cycle_outlives_stop
  (stringify : list FaceDetection -> string) (show_nat : nat -> string) :
  let w := run stringify show_nat world0 stop_during_inference in
  isStreaming (cam w) = false /\
  srcObject (cam w) = None /\
  log w = [ODraw (draw_overlay 320 240 (scaleX half_video) (scaleY half_video)
                               [face_100_200]); OStopped; OInfer] /\
  predictions (cam w) = [face_100_200] /\
  timers w = [(0%nat, 2%nat)] /\
  let w' := step stringify show_nat w (EvFire 0) in
  rafQueue w' = 1%nat /\ timers w' = [(1%nat, 2%nat)].
Proof.
  intros w. vm_compute. repeat split; reflexivity.
Qed.

(** C5: when the inference of a cycle started by [runDetection] throws,
    the cycle sets the user-visible error and the debug text
    ["Error: " ++ err], the exception goes no further, and the next
    [runDetection] is scheduled (stored in [timeoutId] when the cycle
    belongs to the current effect instance). *)
Theorem inference_failure_keeps_loop
  (stringify : list FaceDetection -> string) (show_nat : nat -> string)
  (w : World) (inst : nat) (dims : Q * Q * Q * Q)
  (rest : list (Origin * (Q * Q * Q * Q))) (err : string)
  (Hp : pending w = (FromLoop inst, dims) :: rest) :
  let w' := resolve stringify show_nat w (InfThrows err) in
  error (cam w') = Some detect_error_msg /\
  debugInfo (cam w') = ("Error: " ++ err)%string /\
  pending w' = rest /\
  timers w' = timers w ++ [(nextId w, inst)] /\
  (inst = effInst w -> timeoutId w' = Some (nextId w)).
Proof.
  intros w'. unfold w', resolve. rewrite Hp.
  destruct dims as [[[cw ch] sx] sy]. simpl.
  repeat split; try reflexivity.
  intros ->. rewrite Nat.eqb_refl. reflexivity.
Qed.

Lemma inference_failure_keeps_loop_witness :
  let w := run (fun _ => EmptyString) (fun _ => EmptyString) world0
               [EvLoad (Loaded 1); EvGetUserMedia (Some [camera_track]); EvMetadata] in
  pending w = [(FromLoop 2, (320, 240, scaleX half_video, scaleY half_video))] /\
  timers (resolve (fun _ => EmptyString) (fun _ => EmptyString) w (InfThrows "boom"%string))
    = [(0%nat, 2%nat)].
Proof.
  intros w.
  assert (Hp : pending w = [(FromLoop 2, (320, 240, scaleX half_video, scaleY half_video))])
    by (vm_compute; reflexivity).
  split; [exact Hp|].
  rewrite (proj1 (proj2 (proj2 (proj2
    (inference_failure_keeps_loop (fun _ => EmptyString) (fun _ => EmptyString)
       w 2 _ [] "boom"%string Hp))))).
  vm_compute. reflexivity.
Defined.

End CameraFacts.

(** * [stopCamera] in both components *)
Module StopFacts.
Import Inputs.

(** C4, counterexample: in the cropped-face variant, once the models are
    loaded and before any camera start, [stopCamera] (the unmount cleanup
    calls it) finds no stream and leaves the debug text in place.  In
    [camera.tsx], after Stop during an inference the returning cycle
    stores a face again, and a further [stopCamera] leaves it there. *)
Lemma stop_without_stream_keeps_state :
  let s := Cropped.loadModels Cropped.initial_state (Cropped.BothLoaded 1 2) in
  Cropped.stopCamera s = (s, []) /\
  Cropped.debugInfo (fst (Cropped.stopCamera s)) = "Models loaded successfully"%string /\
  let c := Camera.cam (Camera.run (fun _ => EmptyString) (fun _ => EmptyString)
                                  world0 stop_during_inference) in
  Camera.stopCamera c = (c, []) /\
  Camera.predictions (fst (Camera.stopCamera c)) = [face_100_200].
Proof. vm_compute. repeat split; reflexivity. Qed.

(** C4, as the code has it: when a video element is mounted and a stream
    is attached, [stopCamera] stops every track of that stream, detaches
    it, clears the streaming flag and resets the predictions, the debug
    text and (in the cropped-face variant) the cropped faces; otherwise it
    does nothing at all. *)
Theorem stop_clears_attached_stream :
  (forall s : Camera.Cam,
      match Camera.videoMounted s, Camera.srcObject s with
      | true, Some tracks =>
          let '(s', ts) := Camera.stopCamera s in
          Camera.srcObject s' = None /\ Camera.isStreaming s' = false /\
          Camera.predictions s' = [] /\ Camera.debugInfo s' = EmptyString /\
          map track_id ts = map track_id tracks /\ Forall (fun t => live t = false) ts
      | _, _ => Camera.stopCamera s = (s, [])
      end) /\
  (forall s : Cropped.State,
      match Cropped.videoMounted s, Cropped.srcObject s with
      | true, Some tracks =>
          let '(s', ts) := Cropped.stopCamera s in
          Cropped.srcObject s' = None /\ Cropped.isStreaming s' = false /\
          Cropped.predictions s' = [] /\ Cropped.croppedFaces s' = [] /\
          Cropped.debugInfo s' = EmptyString /\
          map track_id ts = map track_id tracks /\ Forall (fun t => live t = false) ts
      | _, _ => Cropped.stopCamera s = (s, [])
      end).
Proof.
  assert (Hstop : forall tracks,
             map track_id (map stop_track tracks) = map track_id tracks /\
             Forall (fun t => live t = false) (map stop_track tracks)).
  { intros tracks. rewrite map_map. split; [reflexivity|].
    apply Forall_forall. intros t Ht. apply in_map_iff in Ht.
    destruct Ht as [t0 [<- _]]. reflexivity. }
  split.
  - intros s. unfold Camera.stopCamera.
    destruct (Camera.videoMounted s), (Camera.srcObject s) as [tracks|];
      try reflexivity.
    simpl. repeat split; try reflexivity; apply Hstop.
  - intros s. unfold Cropped.stopCamera.
    destruct (Cropped.videoMounted s), (Cropped.srcObject s) as [tracks|];
      try reflexivity.
    simpl. repeat split; try reflexivity; apply Hstop.
Qed.

End StopFacts.

(** * Properties of the cropped-face variant *)
Module CroppedFacts.
Import Cropped Inputs.

(** C6 (defect): in the cropped-face variant [runDetection] does not await
    [detectFaces()], so the first cycle is still suspended when its
    successor is scheduled, and when that timer fires a second cycle
    starts while the first is in flight.  In [camera.tsx], which awaits,
    the same start leaves one cycle in flight and no timer pending. *)
Theorem cycles_overlap_without_await :
  let l := effect_start cropped_loop0 in
  inflight l = 1%nat /\ ltimers l = [0%nat] /\
  inflight (lrun l [LFire 0]) = 2%nat /\
  (let w := Camera.run (fun _ => EmptyString) (fun _ => EmptyString) world0
              [Camera.EvLoad (Camera.Loaded 1); Camera.EvGetUserMedia (Some [camera_track]);
               Camera.EvMetadata] in
   List.length (Camera.pending w) = 1%nat /\ Camera.timers w = []).
Proof. vm_compute. repeat split; reflexivity. Qed.

Section Replace.

Variable landmark_call : Canvas -> (string + list LmFace).
Variable debug_text : list FaceDetection -> string.



Definition guard (s : State) : bool :=
  videoMounted s && is_set (blazefaceModel s) && canvasMounted s && is_set (landmarkModel s).

End Replace.

End CroppedFacts.

(** * Properties of the cropped-face variant, step by step *)
Module CroppedRunFacts.
Import Cropped CroppedRun Inputs.

Lemma run_cons (dt : list FaceDetection -> string) (w : World) (e : Event) (es : list Event) :
  run dt w (e :: es) = run dt (step dt w e) es.
Proof. reflexivity. Qed.


Lemma find_set_none (c : nat) (l : list (nat * Await)) :
  find_cycle c (set_cycle c None l) = None.
Proof.
  induction l as [|[i a] l IH]; simpl; [reflexivity|].
  destruct (Nat.eqb i c) eqn:E; simpl; [exact IH|]. rewrite E. exact IH.
Qed.




Lemma step_blaze (dt : list FaceDetection -> string) (w : World) (c : nat)
  (cw ch sx sy : Q) (r : Camera.Inference) :
  find_cycle c (cycles w) = Some (AtBlaze cw ch sx sy) ->
  step dt w (EvBlaze c r) =
    match r with
    | Camera.InfThrows err => with_cycle w (set_failure (st w) err) c None
    | Camera.InfOk preds =>
        let '(s', oa) := advance dt (with_predictions (st w) preds [ClearRect 0 0 cw ch])
                                 sx sy preds preds [] in
        with_cycle w s' c oa
    end.
Proof. intros H. unfold step. rewrite H. reflexivity. Qed.

Lemma step_landmark (dt : list FaceDetection -> string) (w : World) (c : nat)
  (sx sy : Q) (P : list FaceDetection) (f : FaceDetection) (rest : list FaceDetection)
  (acc : list CroppedFace) (r : string + list LmFace) :
  find_cycle c (cycles w) = Some (AtLandmark sx sy P f rest acc) ->
  step dt w (EvLandmark c r) =
    match r with
    | inl err => with_cycle w (set_failure (st w) err) c None
    | inr lms =>
        let '(s', oa) := advance dt (st w) sx sy P rest
                                 (acc ++ [mkCropped (cropFace f) lms]) in
        with_cycle w s' c oa
    end.
Proof. intros H. unfold step. rewrite H. reflexivity. Qed.


















(** When the landmark model fails to load after blazeface has loaded,
    the blazeface model is stored, the landmark model stays unset, the
    error is shown and loading ends.  [loadModels] runs once per mount, so
    from then on, whatever the user does (start, stop, metadata, video
    changes, frames, timers), the landmark model stays unset, no
    [detectFaces] call ever reaches its blazeface call and no detection
    timer is ever scheduled. *)
Theorem landmark_load_failure_blocks_detection (debug_text : list FaceDetection -> string)
  (w : World) (b : nat) (err : string) (es : list Event)
  (Hlm : landmarkModel (st w) = None) (Hcyc : cycles w = []) (Htm : timers w = [])
  (Hes : forall e, In e es -> is_load e = false) :
  let w1 := step debug_text w (EvLoad (LandmarkFails b err)) in
  blazefaceModel (st w1) = Some b /\ landmarkModel (st w1) = None /\
  isLoading (st w1) = false /\
  error (st w1) = Some "Failed to load the face detection models."%string /\
  let w' := run debug_text w1 es in
  landmarkModel (st w') = None /\ cycles w' = [] /\ timers w' = [].
Proof.
  set (blocked := fun x : World => landmarkModel (st x) = None /\ cycles x = [] /\ timers x = []).
  assert (Hsync : forall bf x, blocked x -> st (sync_effect bf x) = st x /\ blocked (sync_effect bf x)).
  { intros bf x [Hl [Hc Ht]]. unfold sync_effect.
    destruct (same_deps (st bf) (st x)); [split; [reflexivity | repeat split; assumption]|].
    cbv zeta. simpl. rewrite Hl, andb_false_r.
    split; [reflexivity|]. split; [exact Hl|]. split; [exact Hc|].
    simpl. rewrite Ht. destruct (timeoutId x); reflexivity. }
  assert (Hstep : forall x e, is_load e = false -> blocked x -> blocked (step debug_text x e)).
  { intros x e Hload Hx. pose proof Hx as [Hl [Hc Ht]].
    destruct e as [o|r| | |v|id| |c r|c r]; try discriminate.
    - apply (Hsync x (with_st x (startCamera (st x) r))). split; [|split; assumption].
      simpl. destruct r; simpl; [destruct (videoMounted (st x))|]; exact Hl.
    - apply (Hsync x (with_st x (onLoadedMetadata (st x)))). split; [|split; assumption].
      simpl. unfold onLoadedMetadata. destruct (srcObject (st x)); exact Hl.
    - simpl. destruct (videoMounted (st x) && is_set (srcObject (st x))); [|exact Hx].
      apply (Hsync x (with_st x (fst (stopCamera (st x))))). split; [|split; assumption].
      simpl. unfold stopCamera. destruct (videoMounted (st x)), (srcObject (st x)); exact Hl.
    - split; [exact Hl | split; assumption].
    - simpl. rewrite Ht. exact Hx.
    - simpl. destruct (rafQueue x) as [|n]; [exact Hx|].
      unfold detect_start, detect_begin. simpl. rewrite Hl, andb_false_r.
      split; [exact Hl | split; assumption].
    - simpl. rewrite Hc. exact Hx.
    - simpl. rewrite Hc. exact Hx. }
  destruct (Hsync w (with_st w (loadModels (st w) (LandmarkFails b err))))
    as [Hs1 Hb1]; [split; [exact Hlm | split; assumption]|].
  cbv zeta.
  change (step debug_text w (EvLoad (LandmarkFails b err)))
    with (sync_effect w (with_st w (loadModels (st w) (LandmarkFails b err)))).
  assert (Hrun : forall es' x, blocked x -> (forall e, In e es' -> is_load e = false) ->
                   blocked (run debug_text x es')).
  { induction es' as [|e es' IH]; intros x Hx Hes'; [exact Hx|].
    rewrite run_cons. apply IH; [apply Hstep; [apply Hes'; left; reflexivity | exact Hx]|].
    intros e' H. apply Hes'. right. exact H. }
  rewrite Hs1.
  split; [reflexivity|]. split; [exact Hlm|]. split; [reflexivity|]. split; [reflexivity|].
  exact (Hrun es _ Hb1 Hes).
Qed.

Lemma landmark_load_failure_blocks_detection_witness :
  let es := [EvGetUserMedia (Some [camera_track]); EvMetadata; EvFrame; EvFire 0] in
  landmarkModel (st cropped_mount) = None /\
  cycles (run (fun _ => EmptyString)
              (step (fun _ => EmptyString) cropped_mount (EvLoad (LandmarkFails 1 "network"%string)))
              es) = [].
Proof.
  intros es.
  assert (H1 : landmarkModel (st cropped_mount) = None) by reflexivity.
  assert (Hes : forall e, In e es -> is_load e = false)
    by (intros e H; repeat (destruct H as [<-|H]; [reflexivity|]); destruct H).
  split; [exact H1|].
  exact (proj1 (proj2 (proj2 (proj2 (proj2 (proj2
           (landmark_load_failure_blocks_detection (fun _ => EmptyString) cropped_mount 1
              "network"%string es H1 eq_refl eq_refl Hes))))))).
Defined.

(** A blazeface or landmark call that throws ends its [detectFaces] call
    at that step: the error message and an ["Error: ..."] debug text are
    set, and the stored predictions and cropped faces stay as they are.
    The crops that call had gathered are dropped with it, so the cropped
    faces remain those of an earlier call (or of a stop). *)
Theorem failed_cycle_keeps_old_crops (debug_text : list FaceDetection -> string)
  (w : World) (c : nat) :
  (forall cw ch sx sy err, find_cycle c (cycles w) = Some (AtBlaze cw ch sx sy) ->
     let w' := step debug_text w (EvBlaze c (Camera.InfThrows err)) in
     predictions (st w') = predictions (st w) /\ croppedFaces (st w') = croppedFaces (st w) /\
     error (st w') = Some Camera.detect_error_msg /\
     debugInfo (st w') = ("Error: " ++ err)%string /\ find_cycle c (cycles w') = None) /\
  (forall sx sy preds face rest acc err,
     find_cycle c (cycles w) = Some (AtLandmark sx sy preds face rest acc) ->
     let w' := step debug_text w (EvLandmark c (inl err)) in
     predictions (st w') = predictions (st w) /\ croppedFaces (st w') = croppedFaces (st w) /\
     error (st w') = Some Camera.detect_error_msg /\
     debugInfo (st w') = ("Error: " ++ err)%string /\ find_cycle c (cycles w') = None).
Proof.
  split.
  - intros cw ch sx sy err Hf w'. unfold w'.
    rewrite (step_blaze debug_text w c cw ch sx sy _ Hf). simpl.
    repeat split; try reflexivity. apply find_set_none.
  - intros sx sy preds face rest acc err Hf w'. unfold w'.
    rewrite (step_landmark debug_text w c sx sy preds face rest acc _ Hf). simpl.
    repeat split; try reflexivity. apply find_set_none.
Qed.

Lemma failed_cycle_keeps_old_crops_witness :
  let w := run (fun _ => EmptyString) cropped_ready
             [EvGetUserMedia (Some [camera_track]); EvMetadata;
              EvBlaze 0 (Camera.InfOk [face_100_200])] in
  find_cycle 0 (cycles w) =
    Some (AtLandmark (Camera.scaleX half_video) (Camera.scaleY half_video)
                     [face_100_200] face_100_200 [] []) /\
  croppedFaces (st (step (fun _ => EmptyString) w (EvLandmark 0 (inl "oom"%string))))
    = croppedFaces (st w).
Proof.
  intros w.
  assert (H : find_cycle 0 (cycles w) =
                Some (AtLandmark (Camera.scaleX half_video) (Camera.scaleY half_video)
                                 [face_100_200] face_100_200 [] []))
    by (vm_compute; reflexivity).
  split; [exact H|].
  exact (proj1 (proj2 (proj2 (failed_cycle_keeps_old_crops (fun _ => EmptyString) w 0)
           _ _ _ _ _ _ "oom"%string H))).
Defined.

End CroppedRunFacts.

(** * The crop and the boxes of the cropped-face variant *)
Module CropFacts.
Import Cropped Inputs.

(** Below 2^31 a non-negative value written to [canvas.width] or
    [canvas.height] becomes its integer part. *)
Lemma to_dim_floor (d : Z) (q : Q) :
  0 <= q -> q < inject_Z 2147483648 ->
  inject_Z (to_dim d q) <= q /\ q < inject_Z (to_dim d q) + 1.
Proof.
  destruct q as [n den]. unfold Qle, Qlt. simpl. intros H0 H1.
  rewrite Z.mul_1_r in H0, H1.
  assert (Hd : (0 < Z.pos den)%Z) by lia.
  unfold to_dim. simpl.
  rewrite Z.quot_div_nonneg by lia.
  assert (Hq0 : (0 <= n / Z.pos den)%Z) by (apply Z.div_pos; lia).
  assert (Hq1 : (n / Z.pos den < 2147483648)%Z)
    by (apply Z.div_lt_upper_bound; lia).
  rewrite Z.mod_small by lia.
  replace (n / Z.pos den <=? 2147483647)%Z with true by (symmetry; apply Z.leb_le; lia).
  pose proof (Z.div_mod n (Z.pos den) ltac:(lia)) as Hdm.
  pose proof (Z.mod_pos_bound n (Z.pos den) Hd) as Hmb.
  unfold Qle, Qlt, Qplus, inject_Z. simpl. split; nia.
Qed.

(** C8, counterexample: a face 100.25 wide gives a crop width of 200.5,
    but the crop canvas is 200 pixels wide. *)
Lemma crop_canvas_not_fractional :
  canvasWidth (cropFace face_fractional) = 200%Z /\
  ~ (inject_Z (canvasWidth (cropFace face_fractional))
       == (fst (bottomRight face_fractional) - fst (topLeft face_fractional)) * scaleFactor).
Proof.
  split; [vm_compute; reflexivity|].
  vm_compute. intros H. discriminate H.
Qed.

(** C8, as the code has it: for any face and any factor [s] and offset
    [v], the crop copies the source rectangle at
    (x - (s*w - w)/2, y*v - (s*h - h)/2) of size s*w by s*h, unclamped, to
    (0,0) at the same size; its horizontal midpoint is the box's; the crop
    canvas gets the dimensions s*w and s*h as converted by [canvas.width]
    and [canvas.height], i.e. their integer parts when in [0, 2^31). *)
Theorem crop_region_formula (s v : Q) (face : FaceDetection) :
  let x := fst (topLeft face) in
  let y := snd (topLeft face) in
  let w := fst (bottomRight face) - fst (topLeft face) in
  let h := snd (bottomRight face) - snd (topLeft face) in
  let c := cropFace_with s v true face in
  drawn c = Some (mkDrawImage (x - (w * s - w) / 2) (y * v - (h * s - h) / 2)
                              (w * s) (h * s) 0 0 (w * s) (h * s)) /\
  (x - (w * s - w) / 2) + (w * s) / 2 == x + w / 2 /\
  canvasWidth c = to_dim 300 (w * s) /\ canvasHeight c = to_dim 150 (h * s) /\
  (0 <= w * s -> w * s < inject_Z 2147483648 ->
     inject_Z (canvasWidth c) <= w * s < inject_Z (canvasWidth c) + 1) /\
  (0 <= h * s -> h * s < inject_Z 2147483648 ->
     inject_Z (canvasHeight c) <= h * s < inject_Z (canvasHeight c) + 1).
Proof.
  destruct face as [[x y] [bx by'] p ls]. simpl.
  split; [reflexivity|]. split; [field|].
  split; [reflexivity|]. split; [reflexivity|].
  split; intros H0 H1; apply to_dim_floor; assumption.
Qed.

Lemma scale_below_iff (a : Q) : a * yScalerPos < a <-> 0 < a.
Proof.
  destruct a as [n d]. unfold Qlt, Qmult, yScalerPos. simpl.
  rewrite Pos2Z.inj_mul. split; intros H; nia.
Qed.

Lemma scale_above_iff (a : Q) : a < a * yScalerPos <-> a < 0.
Proof.
  destruct a as [n d]. unfold Qlt, Qmult, yScalerPos. simpl.
  rewrite Pos2Z.inj_mul. split; intros H; nia.
Qed.

(** C9, counterexample: for a face whose top edge is above the frame
    (y = -10) the box top is drawn at -8.5, below the -10 the landmark
    transform gives: the box moves down, not up. *)
Lemma box_shift_downward_above_frame :
  snd (topLeft face_above_frame) <> 0 /\
  exists rx ry rw rh rest,
    draw_face 1 1 face_above_frame = StrokeRect rx ry rw rh :: rest /\
    snd (topLeft face_above_frame) * 1 < ry.
Proof.
  split; [vm_compute; discriminate|].
  eexists _, _, _, _, _. split; [reflexivity|]. vm_compute. reflexivity.
Qed.

(** C9, as the code has it: the box is drawn with top y * scaleY * 0.85
    and height h * scaleY, every landmark at (lx * scaleX, ly * scaleY);
    the box top lies above y * scaleY exactly when y * scaleY > 0 and
    below it exactly when y * scaleY < 0. *)
Theorem box_and_landmarks_vertical_transforms (sx sy : Q) (face : FaceDetection) :
  let y := snd (topLeft face) in
  draw_face sx sy face =
    StrokeRect (fst (topLeft face) * sx) (y * sy * yScalerPos)
               ((fst (bottomRight face) - fst (topLeft face)) * sx)
               ((snd (bottomRight face) - snd (topLeft face)) * sy)
    :: map (fun '(lx, ly) => Arc (lx * sx) (ly * sy) 3) (landmarks face) /\
  (y * sy * yScalerPos < y * sy <-> 0 < y * sy) /\
  (y * sy < y * sy * yScalerPos <-> y * sy < 0).
Proof.
  destruct face as [[x y] br p ls]. simpl.
  split; [reflexivity|]. split; [apply scale_below_iff | apply scale_above_iff].
Qed.

End CropFacts.

(** * The results panel of [camera.tsx] *)
Module PanelFacts.
Import Panel Inputs.

Lemma face_entry_none (face : FaceDetection) :
  face_entry face = None <-> (List.length (landmarks face) < 6)%nat.
Proof.
  unfold face_entry, landmark_at.
  destruct (landmarks face) as [|[a0 b0] [|[a1 b1] [|[a2 b2] [|[a3 b3]
           [|[a4 b4] [|[a5 b5] ls]]]]]]; simpl;
    split; intros H; try reflexivity; try discriminate; lia.
Qed.

Lemma entries_none (preds : list FaceDetection) :
  entries preds = None <-> exists face, In face preds /\ face_entry face = None.
Proof.
  induction preds as [|face rest IH]; simpl.
  - split; [discriminate | intros [f [[] _]]].
  - destruct (face_entry face) as [e|] eqn:He.
    + destruct (entries rest) as [es|] eqn:Hr.
      * split; [discriminate|]. intros [f [[<-|Hin] Hf]]; [congruence|].
        pose proof (proj2 IH (ex_intro _ f (conj Hin Hf))). discriminate.
      * split; [|reflexivity]. intros _.
        destruct (proj1 IH eq_refl) as [f [Hin Hf]]. exists f. split; [right|]; assumption.
    + split; [|reflexivity]. intros _. exists face. split; [left; reflexivity | exact He].
Qed.

(** C10: while the panel is shown (streaming with a model), rendering it
    throws exactly when some stored detection has fewer than 6 landmarks:
    indices 0 to 5 are read unconditionally. *)
Theorem panel_needs_six_landmarks (s : Camera.Cam)
  (Hs : Camera.isStreaming s = true) (Hm : is_set (Camera.model s) = true) :
  render_panel s = None <->
  exists face, In face (Camera.predictions s) /\ (List.length (landmarks face) < 6)%nat.
Proof.
  unfold render_panel. rewrite Hs, Hm. cbn [andb].
  destruct (Camera.predictions s) as [|f fs] eqn:Hp; cbn -[entries].
  - split; [discriminate | intros [face [[] _]]].
  - assert (Hiff : entries (f :: fs) = None <->
                   exists face, In face (f :: fs) /\
                                (List.length (landmarks face) < 6)%nat).
    { rewrite entries_none. split; intros [face [Hin H]]; exists face;
        split; try exact Hin; apply face_entry_none; exact H. }
    destruct (entries (f :: fs)) eqn:He.
    + split; [discriminate|]. intros Hx. apply Hiff in Hx. congruence.
    + split; [intros _; apply Hiff; reflexivity | reflexivity].
Qed.

Definition panel_cam : Camera.Cam :=
  Camera.mkCam true true (Some [camera_track]) true None (Some 1%nat) false
               [face_two_landmarks] EmptyString 1 [].

Lemma panel_needs_six_landmarks_witness :
  Camera.isStreaming panel_cam = true /\ is_set (Camera.model panel_cam) = true /\
  render_panel panel_cam = None.
Proof.
  assert (H1 : Camera.isStreaming panel_cam = true) by reflexivity.
  assert (H2 : is_set (Camera.model panel_cam) = true) by reflexivity.
  split; [exact H1|]. split; [exact H2|].
  apply (proj2 (panel_needs_six_landmarks panel_cam H1 H2)).
  exists face_two_landmarks. split; [left; reflexivity | simpl; lia].
Defined.

End PanelFacts.

(** * Further properties of [camera.tsx] *)
Module CameraExtra.
Import Camera Inputs.

(** A later successful camera start after a failed model load: the load
    error disappears from the screen and streaming starts, but the model
    stays unset and no inference is made, neither during the start nor
    afterwards, whatever events follow short of a successful load
    ([loadModel] runs once per mount). *)
Theorem camera_start_hides_load_error
  (stringify : list FaceDetection -> string) (show_nat : nat -> string)
  (w : World) (o : LoadOutcome) (ts : list Track)
  (Hnone : model (cam w) = None) (Hfail : forall m, o <> Loaded m)
  (Hvideo : videoMounted (cam w) = true) :
  let w' := run stringify show_nat w [EvLoad o; EvGetUserMedia (Some ts); EvMetadata] in
  error (cam w') = None /\ isStreaming (cam w') = true /\ isLoading (cam w') = false /\
  model (cam w') = None /\
  (exists fresh, log w' = fresh ++ log w /\ ~ In OInfer fresh) /\
  (forall es, (forall e, In e es -> CameraFacts.loaded_ok e = false) ->
     model (cam (run stringify show_nat w' es)) = None /\
     exists fresh, log (run stringify show_nat w' es) = fresh ++ log w' /\ ~ In OInfer fresh).
Proof.
  intros w'.
  assert (Hes : forall e, In e [EvLoad o; EvGetUserMedia (Some ts); EvMetadata] ->
                          CameraFacts.loaded_ok e = false).
  { intros e [<-|[<-|[<-|[]]]]; try reflexivity.
    destruct o as [ | | m]; [reflexivity | reflexivity | exfalso; exact (Hfail m eq_refl)]. }
  destruct (CameraFacts.run_no_model stringify show_nat w _ Hnone Hes) as [Hm [f [Hl Hn]]].
  assert (Hfut : forall es, (forall e, In e es -> CameraFacts.loaded_ok e = false) ->
            model (cam (run stringify show_nat w' es)) = None /\
            exists fresh, log (run stringify show_nat w' es) = fresh ++ log w' /\
                          ~ In OInfer fresh)
    by (intros es Hes'; exact (CameraFacts.run_no_model stringify show_nat w' es Hm Hes')).
  assert (E : forall b x, model (cam x) = None -> cam (sync_effect b x) = cam x)
    by (intros b x Hx; exact (proj1 (CameraFacts.sync_effect_no_model b x Hx))).
  assert (Hmo : model (loadModel (cam w) o) = None)
    by (destruct o as [ | | m]; [| | exfalso; exact (Hfail m eq_refl)]; exact Hnone).
  assert (Hvo : videoMounted (loadModel (cam w) o) = videoMounted (cam w))
    by (destruct o; reflexivity).
  pose (w1 := step stringify show_nat w (EvLoad o)).
  pose (w2 := step stringify show_nat w1 (EvGetUserMedia (Some ts))).
  assert (H1 : cam w1 = loadModel (cam w) o) by (apply E; exact Hmo).
  assert (H2 : cam w2 = startCamera (loadModel (cam w) o) (Some ts)).
  { unfold w2. simpl. rewrite E; simpl; rewrite H1; [reflexivity|].
    unfold startCamera. rewrite Hvo, Hvideo. exact Hmo. }
  assert (Hc : cam w' = onLoadedMetadata (startCamera (loadModel (cam w) o) (Some ts))).
  { change w' with (step stringify show_nat w2 EvMetadata). simpl.
    rewrite E; simpl; rewrite H2; [reflexivity|].
    unfold onLoadedMetadata, startCamera. rewrite Hvo, Hvideo. exact Hmo. }
  rewrite Hc. destruct o as [ | | m]; [| | exfalso; exact (Hfail m eq_refl)];
    simpl; rewrite Hvideo; simpl;
    (split; [reflexivity|]); (split; [reflexivity|]); (split; [reflexivity|]);
    (split; [exact Hnone|]); (split; [exists f; split; assumption | exact Hfut]).
Qed.

Lemma camera_start_hides_load_error_witness :
  model (cam world0) = None /\ (forall m, BackendFails <> Loaded m) /\
  videoMounted (cam world0) = true /\
  error (cam (run (fun _ => EmptyString) (fun _ => EmptyString) world0
                  [EvLoad BackendFails; EvGetUserMedia (Some [camera_track]); EvMetadata]))
    = None.
Proof.
  assert (H1 : model (cam world0) = None) by reflexivity.
  assert (H2 : forall m, BackendFails <> Loaded m) by discriminate.
  assert (H3 : videoMounted (cam world0) = true) by reflexivity.
  split; [exact H1|]. split; [exact H2|]. split; [exact H3|].
  exact (proj1 (camera_start_hides_load_error (fun _ => EmptyString) (fun _ => EmptyString)
                  world0 BackendFails [camera_track] H1 H2 H3)).
Defined.

Definition is_box (c : DrawCmd) : bool :=
  match c with StrokeRect _ _ _ _ => true | _ => false end.

(** One repaint: a clear, then per detection one box and one dot per
    landmark; with no detections only the clear, no shape at all. *)
Theorem overlay_shape_counts (cw ch sx sy : Q) (preds : list FaceDetection) :
  draw_overlay cw ch sx sy [] = [ClearRect 0 0 cw ch] /\
  hd_error (draw_overlay cw ch sx sy preds) = Some (ClearRect 0 0 cw ch) /\
  List.length (filter is_box (draw_overlay cw ch sx sy preds)) = List.length preds /\
  List.length (draw_overlay cw ch sx sy preds)
    = S (fold_right (fun f n => S (List.length (landmarks f)) + n)%nat 0%nat preds).
Proof.
  split; [reflexivity|]. split; [reflexivity|].
  unfold draw_overlay. simpl.
  induction preds as [|f fs IH]; [split; reflexivity|].
  destruct IH as [IH1 IH2].
  destruct f as [[x y] br p ls]. simpl.
  rewrite filter_app, !length_app, length_map. simpl.
  split.
  - rewrite IH1.
    assert (Hf : filter is_box (map (fun '(lx, ly) => Arc (lx * sx) (ly * sy) 3) ls) = []).
    { induction ls as [|[lx ly] ls IHl]; [reflexivity | exact IHl]. }
    rewrite Hf. reflexivity.
  - injection IH2 as IH2. rewrite IH2. lia.
Qed.

(** A cycle on a video without enough data: no inference, a retry through
    [requestAnimationFrame] and the next [runDetection] scheduled. *)
Theorem not_ready_reschedules_twice (w : World) (inst : nat)
  (Hnr : detect_begin (cam w) (video w) = NotReady) :
  let w' := runDetection w inst in
  log w' = log w /\ pending w' = pending w /\ rafQueue w' = S (rafQueue w) /\
  timers w' = timers w ++ [(nextId w, inst)] /\ cam w' = cam w.
Proof.
  intros w'. unfold w', runDetection. rewrite Hnr. simpl.
  repeat split; reflexivity.
Qed.

Lemma not_ready_reschedules_twice_witness :
  let w := with_cam (with_video world0 (unload half_video)) loaded_cam in
  detect_begin (cam w) (video w) = NotReady /\ rafQueue (runDetection w 0) = 1%nat.
Proof.
  intros w.
  assert (H : detect_begin (cam w) (video w) = NotReady) by reflexivity.
  split; [exact H|].
  rewrite (proj1 (proj2 (proj2 (not_ready_reschedules_twice w 0 H)))). reflexivity.
Defined.

Definition is_loop (p : Origin * (Q * Q * Q * Q)) : bool :=
  match fst p with FromLoop _ => true | FromRaf => false end.

(** The cycles of the timer loop: those in flight that [runDetection]
    started, plus the pending timers. *)
Definition loop_load (w : World) : nat :=
  (List.length (filter is_loop (pending w)) + List.length (timers w))%nat.

(** Events that are not part of the component's lifecycle. *)
Definition loop_event (e : Event) : bool :=
  match e with
  | EvFire _ | EvResolve _ | EvFrame | EvVideo _ => true
  | _ => false
  end.

Lemma loop_load_set_timer (w : World) (inst : nat) :
  loop_load (set_timer w inst) = S (loop_load w).
Proof.
  unfold loop_load, set_timer. simpl. rewrite length_app. simpl. lia.
Qed.

Lemma loop_load_runDetection (w : World) (inst : nat) :
  loop_load (runDetection w inst) = S (loop_load w).
Proof.
  unfold runDetection. destruct (detect_begin (cam w) (video w)).
  - apply loop_load_set_timer.
  - rewrite loop_load_set_timer. reflexivity.
  - unfold loop_load. simpl. rewrite filter_app, length_app. simpl. lia.
Qed.

Lemma find_filter_shorter {A} (f : A -> bool) (l : list A) (x : A) :
  find f l = Some x -> (List.length (filter (fun a => negb (f a)) l) < List.length l)%nat.
Proof.
  induction l as [|a l IH]; simpl; [discriminate|].
  destruct (f a); simpl.
  - intros _. pose proof (filter_length_le (fun a => negb (f a)) l). lia.
  - intros H. specialize (IH H). lia.
Qed.

Lemma loop_load_step (stringify : list FaceDetection -> string)
  (show_nat : nat -> string) (w : World) (e : Event) :
  loop_event e = true -> (loop_load (step stringify show_nat w e) <= loop_load w)%nat.
Proof.
  destruct e as [o | r | | | v | id | | r]; simpl; try discriminate; intros _.
  - unfold loop_load. reflexivity.
  - unfold fire. destruct (find _ (timers w)) as [[i inst]|] eqn:Hf; [|lia].
    rewrite loop_load_runDetection. unfold loop_load. simpl.
    assert (Hlt : (List.length (clear_timer (timers w) id) < List.length (timers w))%nat).
    { unfold clear_timer.
      rewrite (filter_ext (fun '(i, _) => negb (Nat.eqb i id))
                 (fun a => negb ((fun '(i, _) => Nat.eqb i id) a)))
        by (intros [a b]; reflexivity).
      apply (find_filter_shorter (fun '(i, _) => Nat.eqb i id) (timers w) (i, inst)).
      exact Hf. }
    lia.
  - unfold runRaf. destruct (rafQueue w) as [|n]; [lia|].
    simpl. destruct (detect_begin (cam w) (video w)); unfold loop_load; simpl;
      rewrite ?filter_app, ?length_app; simpl; lia.
  - unfold resolve. destruct (pending w) as [|[o [[[cw ch] sx] sy]] rest] eqn:Hp; [lia|].
    destruct o as [inst|]; destruct r as [preds | err]; simpl;
      rewrite ?loop_load_set_timer; unfold loop_load; simpl; rewrite Hp; simpl; lia.
Qed.

(** Without lifecycle events (timers firing, inferences settling,
    animation frames, video changes) the timer loop never grows: a cycle
    and its successor timer never coexist, and after a fresh start the
    loop holds at most one cycle, in flight or scheduled. *)
Theorem timer_loop_never_grows (stringify : list FaceDetection -> string)
  (show_nat : nat -> string) (w : World) (es : list Event)
  (Hes : forall e, In e es -> loop_event e = true) :
  (loop_load (run stringify show_nat w es) <= loop_load w)%nat.
Proof.
  revert w. induction es as [|e es IH]; intros w; simpl; [lia|].
  pose proof (loop_load_step stringify show_nat w e (Hes e (or_introl eq_refl))).
  specialize (IH (fun e' H => Hes e' (or_intror H)) (step stringify show_nat w e)).
  lia.
Qed.

Lemma timer_loop_never_grows_witness :
  let w := run (fun _ => EmptyString) (fun _ => EmptyString) world0
               [EvLoad (Loaded 1); EvGetUserMedia (Some [camera_track]); EvMetadata] in
  (forall e, In e [EvResolve (InfOk []); EvFire 0; EvFrame] -> loop_event e = true) /\
  (loop_load (run (fun _ => EmptyString) (fun _ => EmptyString) w
                 [EvResolve (InfOk []); EvFire 0; EvFrame]) <= loop_load w)%nat.
Proof.
  intros w.
  assert (H : forall e, In e [EvResolve (InfOk []); EvFire 0; EvFrame] -> loop_event e = true)
    by (intros e [<-|[<-|[<-|[]]]]; reflexivity).
  split; [exact H|].
  exact (timer_loop_never_grows (fun _ => EmptyString) (fun _ => EmptyString) w _ H).
Defined.

Definition idle (w : World) : Prop :=
  timers w = [] /\ pending w = [] /\ rafQueue w = 0%nat.

Lemma idle_step (stringify : list FaceDetection -> string) (show_nat : nat -> string)
  (w : World) (e : Event) :
  idle w -> loop_event e = true ->
  idle (step stringify show_nat w e) /\ log (step stringify show_nat w e) = log w.
Proof.
  intros [Ht [Hp Hr]].
  destruct e as [o | r | | | v | id | | r]; simpl; try discriminate; intros _.
  - split; [split; [|split]; assumption | reflexivity].
  - unfold fire. rewrite Ht. simpl. split; [split; [|split]; assumption | reflexivity].
  - unfold runRaf. rewrite Hr. split; [split; [|split]; assumption | reflexivity].
  - unfold resolve. rewrite Hp. split; [split; [|split]; assumption | reflexivity].
Qed.

Lemma idle_run (stringify : list FaceDetection -> string) (show_nat : nat -> string)
  (w : World) (es : list Event) :
  idle w -> (forall e, In e es -> loop_event e = true) ->
  log (run stringify show_nat w es) = log w.
Proof.
  revert w. induction es as [|e es IH]; intros w Hidle Hes; simpl; [reflexivity|].
  destruct (idle_step stringify show_nat w e Hidle (Hes e (or_introl eq_refl)))
    as [Hidle' Hl].
  rewrite <- Hl. exact (IH _ Hidle' (fun e' H => Hes e' (or_intror H))).
Qed.

(** Stop while the loop waits on its timer (no cycle in flight, no frame
    retry queued): the cleanup cancels that timer, and from then on,
    until the camera is started again, no inference and no repaint
    happen. *)
Theorem stop_between_cycles_ends_loop (stringify : list FaceDetection -> string)
  (show_nat : nat -> string) (w : World) (ts : list Track) (t : nat)
  (Hstr : isStreaming (cam w) = true) (Hv : videoMounted (cam w) = true)
  (Hsrc : srcObject (cam w) = Some ts) (Hp : pending w = []) (Hr : rafQueue w = 0%nat)
  (Ht : timers w = [(t, effInst w)]) (Hid : timeoutId w = Some t) :
  let w1 := step stringify show_nat w EvStop in
  isStreaming (cam w1) = false /\ timers w1 = [] /\
  forall es, (forall e, In e es -> loop_event e = true) ->
    log (run stringify show_nat w1 es) = log w1.
Proof.
  intros w1.
  assert (Hw1 : isStreaming (cam w1) = false /\ idle w1).
  { unfold w1. simpl. rewrite Hv, Hsrc. simpl.
    unfold sync_effect, stopCamera. rewrite Hv, Hsrc. simpl. rewrite Hstr. simpl.
    rewrite Hid, Ht. simpl. rewrite Nat.eqb_refl. simpl.
    split; [reflexivity|]. split; [reflexivity|]. split; assumption. }
  destruct Hw1 as [Hs Hidle].
  split; [exact Hs|]. split; [exact (proj1 Hidle)|].
  intros es Hes. exact (idle_run stringify show_nat w1 es Hidle Hes).
Qed.

Lemma stop_between_cycles_ends_loop_witness :
  let w := run (fun _ => EmptyString) (fun _ => EmptyString) world0
               [EvLoad (Loaded 1); EvGetUserMedia (Some [camera_track]); EvMetadata;
                EvResolve (InfOk [])] in
  isStreaming (cam w) = true /\ timers w = [(0%nat, effInst w)] /\
  log (run (fun _ => EmptyString) (fun _ => EmptyString)
           (step (fun _ => EmptyString) (fun _ => EmptyString) w EvStop)
           [EvFire 0; EvFrame; EvResolve (InfOk [face_100_200])])
    = log (step (fun _ => EmptyString) (fun _ => EmptyString) w EvStop).
Proof.
  intros w.
  assert (H1 : isStreaming (cam w) = true) by (vm_compute; reflexivity).
  assert (H2 : videoMounted (cam w) = true) by (vm_compute; reflexivity).
  assert (H3 : srcObject (cam w) = Some [camera_track]) by (vm_compute; reflexivity).
  assert (H4 : pending w = []) by (vm_compute; reflexivity).
  assert (H5 : rafQueue w = 0%nat) by (vm_compute; reflexivity).
  assert (H6 : timers w = [(0%nat, effInst w)]) by (vm_compute; reflexivity).
  assert (H7 : timeoutId w = Some 0%nat) by (vm_compute; reflexivity).
  assert (H8 : forall e, In e [EvFire 0; EvFrame; EvResolve (InfOk [face_100_200])] ->
                         loop_event e = true)
    by (intros e [<-|[<-|[<-|[]]]]; reflexivity).
  split; [exact H1|]. split; [exact H6|].
  exact (proj2 (proj2 (stop_between_cycles_ends_loop (fun _ => EmptyString)
                         (fun _ => EmptyString) w [camera_track] 0
                         H1 H2 H3 H4 H5 H6 H7)) _ H8).
Defined.

(** Once the stream's metadata arrives with the model loaded, streaming
    is on and the first cycle starts its inference at once, with the
    scale factors of the current video. *)
Theorem metadata_starts_detection (stringify : list FaceDetection -> string)
  (show_nat : nat -> string) (w : World) (m : nat) (ts : list Track)
  (Hm : model (cam w) = Some m) (Hstr : isStreaming (cam w) = false)
  (Hsrc : srcObject (cam w) = Some ts) (Hv : videoMounted (cam w) = true)
  (Hc : canvasMounted (cam w) = true) (Hready : haveEnoughData (video w) = true) :
  let w' := step stringify show_nat w EvMetadata in
  isStreaming (cam w') = true /\ log w' = OInfer :: log w /\
  pending w' = pending w ++ [(FromLoop (S (effInst w)),
                              (clientWidth (video w), clientHeight (video w),
                               scaleX (video w), scaleY (video w)))].
Proof.
  intros w'. unfold w'. simpl. unfold onLoadedMetadata. rewrite Hsrc.
  unfold sync_effect. simpl. rewrite Hstr, Hm. simpl.
  unfold runDetection, detect_begin. simpl. rewrite Hv, Hc, Hready. simpl.
  repeat split; reflexivity.
Qed.

Lemma metadata_starts_detection_witness :
  let w := with_cam world0 (mkCam true true (Some [camera_track]) false None
                                  (Some 1%nat) false [] EmptyString 0 []) in
  isStreaming (cam (step (fun _ => EmptyString) (fun _ => EmptyString) w EvMetadata))
    = true.
Proof.
  intros w.
  exact (proj1 (metadata_starts_detection (fun _ => EmptyString) (fun _ => EmptyString)
                  w 1 [camera_track] eq_refl eq_refl eq_refl eq_refl eq_refl eq_refl)).
Defined.

End CameraExtra.

(** * Further properties of the cropped-face variant *)
Module CroppedExtra.
Import Cropped Inputs.

(** A cycle that detects no face clears the overlay and draws nothing,
    and empties both predictions and cropped faces. *)
Theorem no_face_cycle_clears (landmark_call : Canvas -> (string + list LmFace))
  (debug_text : list FaceDetection -> string) (s : State) (v : Video)
  (Hguard : CroppedFacts.guard s = true) (Hready : haveEnoughData v = true) :
  let s' := detect_cycle landmark_call debug_text s v (Camera.InfOk []) in
  overlay s' = [ClearRect 0 0 (clientWidth v) (clientHeight v)] /\
  predictions s' = [] /\ croppedFaces s' = [] /\ error s' = error s.
Proof.
  unfold CroppedFacts.guard in Hguard. unfold detect_cycle.
  rewrite Hguard, Hready. simpl. repeat split; reflexivity.
Qed.

Lemma no_face_cycle_clears_witness :
  CroppedFacts.guard cropped_streaming = true /\ haveEnoughData half_video = true /\
  croppedFaces (detect_cycle (fun _ => inr []) (fun _ => EmptyString)
                  cropped_streaming half_video (Camera.InfOk [])) = [].
Proof.
  assert (H1 : CroppedFacts.guard cropped_streaming = true) by reflexivity.
  assert (H2 : haveEnoughData half_video = true) by reflexivity.
  split; [exact H1|]. split; [exact H2|].
  exact (proj1 (proj2 (proj2 (no_face_cycle_clears (fun _ => inr []) (fun _ => EmptyString)
                                cropped_streaming half_video H1 H2)))).
Defined.

End CroppedExtra.

(** * Properties of [face-detection-component.tsx] *)
Module FaceApiFacts.
Import FaceApi Inputs.

(** Starting the camera starts detection at once: the loop is gated on
    [isStreaming] only, so [detectAllFaces] is called however many of the
    three networks have loaded, none included. *)
Theorem detection_starts_without_models (w : FWorld) (ts : list Track)
  (Hs : fIsStreaming (fs w) = false) (Hv : fVideoMounted (fs w) = true)
  (Hc : fCanvasMounted (fs w) = true) :
  let w' := fstep w (FStart (Some ts)) in
  fIsStreaming (fs w') = true /\ flog w' = FInfer :: flog w /\
  netsLoaded (fs w') = netsLoaded (fs w) /\ fInflight w' = fInflight w ++ [S (fInst w)].
Proof.
  intros w'. unfold w'. simpl. unfold startCamera. rewrite Hv.
  unfold sync_effect. simpl. rewrite Hs. simpl.
  unfold detectFaces. simpl. rewrite ?Hv, ?Hc. simpl.
  repeat split; reflexivity.
Qed.

Definition fworld0 : FWorld := mkFW initial_fstate [] 0 0 None [] [].

Lemma detection_starts_without_models_witness :
  netsLoaded (fs fworld0) = 0%nat /\
  flog (fstep fworld0 (FStart (Some [camera_track]))) = [FInfer].
Proof.
  split; [reflexivity|].
  exact (proj1 (proj2 (detection_starts_without_models fworld0 [camera_track]
                         eq_refl eq_refl eq_refl))).
Defined.

Definition fresh_frames (w : FWorld) : Prop :=
  Forall (fun p => (fst p < fNext w)%nat) (frames w).

Lemma find_app_none {A} (f : A -> bool) (l1 l2 : list A) :
  find f l1 = None -> find f (l1 ++ l2) = find f l2.
Proof.
  induction l1 as [|a l1 IH]; simpl; [reflexivity|].
  destruct (f a); [discriminate | exact IH].
Qed.

Lemma find_fresh (l : list (nat * nat)) (n : nat) :
  Forall (fun p => (fst p < n)%nat) l ->
  find (fun '(i, _) => Nat.eqb i n) l = None.
Proof.
  induction l as [|[i k] l IH]; intros H; simpl; [reflexivity|].
  inversion H as [|? ? Hi Hl]; subst. simpl in Hi.
  replace (Nat.eqb i n) with false by (symmetry; apply Nat.eqb_neq; lia).
  exact (IH Hl).
Qed.

Lemma resolve_then_frame (w : FWorld) (i : nat) (rest : list nat) (d : list (list Q))
  (Hin : fInflight w = i :: rest) (Hv : fVideoMounted (fs w) = true)
  (Hc : fCanvasMounted (fs w) = true) (Hfresh : fresh_frames w) :
  let w' := frun w [FResolve d; FFrame (fNext w)] in
  flog w' = FInfer :: FDraw :: flog w /\ fInflight w' = rest ++ [i] /\
  fIsStreaming (fs w') = fIsStreaming (fs w) /\ faceDescriptors (fs w') = d.
Proof.
  intros w'. unfold w', frun. simpl. unfold resolve. rewrite Hin. simpl.
  unfold frame. simpl. rewrite (find_app_none _ _ _ (find_fresh _ _ Hfresh)).
  simpl. rewrite Nat.eqb_refl.
  unfold detectFaces. simpl. rewrite ?Hv, ?Hc. simpl.
  repeat split; reflexivity.
Qed.



(** Stop while a [detectAllFaces] call is in flight: the cleanup cancels
    no frame (none is requested yet).  If the call resolves, the
    descriptors cleared by the stop are replaced, the canvas is drawn
    again, and the next animation frame calls [detectAllFaces] again
    with streaming off.  If it rejects, the descriptors stay cleared,
    nothing is drawn and no frame is requested. *)
Theorem stop_during_detection_keeps_detecting (w : FWorld) (i : nat)
  (ts : list Track) (d : list (list Q))
  (Hin : fInflight w = [i]) (Hs : fIsStreaming (fs w) = true)
  (Hv : fVideoMounted (fs w) = true) (Hc : fCanvasMounted (fs w) = true)
  (Hsrc : fSrcObject (fs w) = Some ts) (Hfresh : fresh_frames w) :
  let w1 := fstep w FStop in
  fIsStreaming (fs w1) = false /\ faceDescriptors (fs w1) = [] /\
  (let w'' := fstep w1 FReject in
   faceDescriptors (fs w'') = [] /\ frames w'' = frames w1 /\ fInflight w'' = [] /\
   flog w'' = FStopped :: flog w) /\
  let w' := frun w1 [FResolve d; FFrame (fNext w1)] in
  fIsStreaming (fs w') = false /\ faceDescriptors (fs w') = d /\
  flog w' = FInfer :: FDraw :: FStopped :: flog w.
Proof.
  intros w1.
  assert (Hw1 : fIsStreaming (fs w1) = false /\ faceDescriptors (fs w1) = [] /\
                fInflight w1 = [i] /\ fVideoMounted (fs w1) = true /\
                fCanvasMounted (fs w1) = true /\ fresh_frames w1 /\
                flog w1 = FStopped :: flog w).
  { unfold w1. simpl. rewrite Hv, Hsrc. simpl. unfold stopCamera. rewrite Hv, Hsrc.
    unfold sync_effect. simpl. rewrite Hs. simpl.
    split; [reflexivity|]. split; [reflexivity|]. split; [exact Hin|].
    split; [try exact Hv; reflexivity|]. split; [try exact Hc; reflexivity|].
    split; [|reflexivity].
    unfold fresh_frames in *. simpl.
    destruct (animationFrameId w) as [id|]; [|exact Hfresh].
    apply Forall_forall. intros p Hp. apply filter_In in Hp.
    exact (proj1 (Forall_forall _ _) Hfresh p (proj1 Hp)). }
  destruct Hw1 as [Hs1 [Hd1 [Hin1 [Hv1 [Hc1 [Hf1 Hl1]]]]]].
  split; [exact Hs1|]. split; [exact Hd1|].
  split; [simpl; rewrite Hin1; split; [exact Hd1|]; split; [reflexivity|];
          split; [reflexivity | exact Hl1]|].
  destruct (resolve_then_frame w1 i [] d Hin1 Hv1 Hc1 Hf1) as [H1 [_ [H3 H4]]].
  split; [rewrite H3; exact Hs1|]. split; [exact H4|].
  rewrite H1, Hl1. reflexivity.
Qed.

Lemma stop_during_detection_keeps_detecting_witness :
  let w := fstep fworld0 (FStart (Some [camera_track])) in
  fInflight w = [1%nat] /\
  fIsStreaming (fs (frun (fstep w FStop) [FResolve []; FFrame (fNext (fstep w FStop))]))
    = false.
Proof.
  intros w.
  assert (H1 : fInflight w = [1%nat]) by reflexivity.
  split; [exact H1|].
  exact (proj1 (proj2 (proj2 (proj2 (stop_during_detection_keeps_detecting w 1 [camera_track] []
                                H1 eq_refl eq_refl eq_refl eq_refl (Forall_nil _)))))).
Defined.

End FaceApiFacts.
